(** * Helena <-> FACTA adapter (src/app.py): a shallow embedding

    The adapter is a FastAPI application with two business endpoints,
    [consulta_ofertas] and [formalizar], which talk to the lender's REST
    API through an HTTP client.  The lender is modelled as an oracle that
    answers each request (possibly depending on the exchanges so far);
    every handler is a computation in a state-and-exception monad whose
    state is the list of exchanges made so far.

    Python values coming out of [r.json()] are modelled by [pyval];
    Python floats are IEEE binary64 values in the representation of the
    standard library's [SpecFloat]; Python [str] values are Rocq strings
    whose characters stand for the code points 0..255.  The text that
    [str(v)] and f-strings produce is not computed: a form value passed
    through [str] is kept as [StrOf v], and each [HTTPException] message
    is a constructor of [detail] that carries the interpolated value.

    Contents: Python floats ([PyFloat]), Python values ([Py]), the HTTP
    client and the lender ([Http]), the application ([App]), the error
    kinds of the specification ([Spec]), sample inputs ([Samples]), and
    then the properties. *)

From Stdlib Require Import ZArith List String Ascii Bool Lia.
From Stdlib Require Import SpecFloat.
Import ListNotations.
Local Open Scope string_scope.
Local Open Scope Z_scope.

(** ** Python floats: binary64 *)

Module PyFloat.

Definition prec : Z := 53.
Definition emax : Z := 1024.

Definition float := spec_float.

Definition zero : float := S754_zero false.

Definition is_nan (f : float) : bool :=
  match f with S754_nan => true | _ => false end.

Definition is_inf (f : float) : bool :=
  match f with S754_infinity _ => true | _ => false end.

(** Python's [a < b] on floats. *)
Definition ltb (a b : float) : bool := SFltb a b.

(** Nearest binary64 value of an integer (ties to even); an infinity
    when the integer is out of range. *)
Definition round_Z (z : Z) : float := binary_normalize prec emax z 0 false.

(** Nearest binary64 value of [(-1)^neg * m * 10^e], as computed by the
    correctly rounded string conversion of CPython ([PyOS_string_to_double]);
    out-of-range values give an infinity, tiny ones a (signed) zero. *)
Definition round_decimal (neg : bool) (m : N) (e : Z) : float :=
  match m with
  | N0 => S754_zero neg
  | Npos p =>
      match e with
      | Zneg k => SFdiv prec emax (S754_finite neg p 0)
                    (S754_finite false (Pos.pow 10 k) 0)
      | Z0 => binary_round prec emax neg p 0
      | Zpos k => binary_round prec emax neg (p * Pos.pow 10 k) 0
      end
  end.

(** *** [float(s)] for a string [s] *)

Definition code (c : ascii) : N := N_of_ascii c.

Definition is_digit (c : ascii) : bool :=
  (48 <=? code c)%N && (code c <=? 57)%N.

Definition digit_val (c : ascii) : N := (code c - 48)%N.

(** [Py_ISSPACE]: tab, line feed, vertical tab, form feed, carriage
    return, space. *)
Definition is_c_space (c : ascii) : bool :=
  ((9 <=? code c)%N && (code c <=? 13)%N) || (code c =? 32)%N.

(** [Py_UNICODE_ISSPACE] on the code points 127..255: NEL and NBSP. *)
Definition is_high_space (c : ascii) : bool :=
  (code c =? 133)%N || (code c =? 160)%N.

(** [_PyUnicode_TransformDecimalAndSpaceToASCII]: code points below 127
    are kept, other white space becomes a blank, and the first other
    character becomes a question mark that ends the string (no code
    point in 127..255 is a decimal digit). *)
Fixpoint to_ascii_text (s : list ascii) : list ascii :=
  match s with
  | [] => []
  | c :: s' =>
      if (code c <? 127)%N then c :: to_ascii_text s'
      else if is_high_space c then " "%char :: to_ascii_text s'
      else ["?"%char]
  end.

Fixpoint lstrip (s : list ascii) : list ascii :=
  match s with
  | c :: s' => if is_c_space c then lstrip s' else s
  | [] => []
  end.

Definition strip (s : list ascii) : list ascii :=
  rev (lstrip (rev (lstrip s))).

(** [_Py_string_to_number_with_underscores]: an underscore must stand
    between two digits; the underscores are then dropped. *)
Fixpoint drop_underscores (prev : ascii) (s : list ascii)
  : option (list ascii) :=
  match s with
  | [] => if Ascii.eqb prev "_"%char then None else Some []
  | c :: s' =>
      if Ascii.eqb c "_"%char then
        if is_digit prev then drop_underscores c s' else None
      else if Ascii.eqb prev "_"%char && negb (is_digit c) then None
      else option_map (cons c) (drop_underscores c s')
  end.

Definition lower (c : ascii) : ascii :=
  if (65 <=? code c)%N && (code c <=? 90)%N
  then ascii_of_N (code c + 32) else c.

Definition list_ascii_eqb (a b : list ascii) : bool :=
  String.eqb (string_of_list_ascii a) (string_of_list_ascii b).

Definition is_word (w : string) (s : list ascii) : bool :=
  list_ascii_eqb (map lower s) (list_ascii_of_string w).

(** Leading sign: [(negative, rest)]. *)
Definition take_sign (s : list ascii) : bool * list ascii :=
  match s with
  | c :: s' =>
      if Ascii.eqb c "-"%char then (true, s')
      else if Ascii.eqb c "+"%char then (false, s')
      else (false, s)
  | [] => (false, [])
  end.

(** Longest prefix of digits, accumulated in base ten:
    [(value, number of digits, rest)]. *)
Fixpoint take_digits (acc : N) (n : Z) (s : list ascii)
  : N * Z * list ascii :=
  match s with
  | c :: s' =>
      if is_digit c then take_digits (10 * acc + digit_val c)%N (n + 1) s'
      else (acc, n, s)
  | [] => (acc, n, [])
  end.

(** Optional exponent part; [None] when what follows the mantissa is
    not a complete exponent that ends the string. *)
Definition parse_exponent (s : list ascii) : option Z :=
  match s with
  | [] => Some 0
  | c :: s' =>
      if Ascii.eqb (lower c) "e"%char then
        let '(neg, s'') := take_sign s' in
        let '(v, n, rest) := take_digits 0 0 s'' in
        match rest with
        | [] => if n =? 0 then None
                else Some (if neg then - Z.of_N v else Z.of_N v)
        | _ :: _ => None
        end
      else None
  end.

(** The decimal grammar of [_PyOS_ascii_strtod]:
    sign, digits with an optional point, optional exponent. *)
Definition parse_decimal (s : list ascii) : option float :=
  let '(neg, s1) := take_sign s in
  let '(ip, ni, s2) := take_digits 0 0 s1 in
  let '(m, nf, s3) :=
    match s2 with
    | c :: s2' =>
        if Ascii.eqb c "."%char then take_digits ip 0 s2' else (ip, 0, s2)
    | [] => (ip, 0, s2)
    end in
  if ni + nf =? 0 then None
  else match parse_exponent s3 with
       | Some e => Some (round_decimal neg m (e - nf))
       | None => None
       end.

(** [_Py_parse_inf_or_nan]. *)
Definition parse_inf_nan (s : list ascii) : option float :=
  let '(neg, s1) := take_sign s in
  if is_word "inf" s1 || is_word "infinity" s1 then Some (S754_infinity neg)
  else if is_word "nan" s1 then Some S754_nan
  else None.

(** [float(s)]; [None] stands for [ValueError]. *)
Definition of_string (s : string) : option float :=
  let t := strip (to_ascii_text (list_ascii_of_string s)) in
  match drop_underscores "000"%char t with
  | None => None
  | Some u =>
      match parse_inf_nan u with
      | Some f => Some f
      | None => parse_decimal u
      end
  end.

(** *** The order of the comparison

    Every float but NaN has a place on a line: the sign class first,
    then exponent and mantissa (mirrored for negative values).  [ltb]
    is the strict order of that line. *)
Definition rank (f : float) : Z * Z * Z :=
  match f with
  | S754_infinity true => (-2, 0, 0)
  | S754_finite true m e => (-1, - e, Zneg m)
  | S754_zero _ => (0, 0, 0)
  | S754_nan => (0, 0, 0)
  | S754_finite false m e => (1, e, Zpos m)
  | S754_infinity false => (2, 0, 0)
  end.

Definition lex_lt (a b : Z * Z * Z) : Prop :=
  let '(a1, a2, a3) := a in
  let '(b1, b2, b3) := b in
  a1 < b1 \/ (a1 = b1 /\ (a2 < b2 \/ (a2 = b2 /\ a3 < b3))).

End PyFloat.

(** ** Python values *)

Module Py.

(** What [r.json()] can return, and what the handlers build from it. *)
#[local] Unset Elimination Schemes.
Inductive pyval : Type :=
| PNone
| PBool (b : bool)
| PInt (z : Z)
| PFloat (f : PyFloat.float)
| PStr (s : string)
| PList (l : list pyval)
| PDict (d : list (string * pyval)).
#[local] Set Elimination Schemes.

(** Exceptions of Python and of the HTTP client that no handler catches
    by name.  [RequestError] is the client's transport failure (timeout,
    refused connection). *)
Inductive pyerror : Type :=
| AttributeError
| TypeError
| ValueError
| OverflowError
| KeyError (k : string)
| IndexError
| JSONDecodeError
| RequestError.

Inductive result (A : Type) : Type :=
| Ok (a : A)
| Err (e : pyerror).
Arguments Ok {A} a.
Arguments Err {A} e.

Definition rbind {A B} (r : result A) (k : A -> result B) : result B :=
  match r with Ok a => k a | Err e => Err e end.

(** [bool(v)]. *)
Definition truthy (v : pyval) : bool :=
  match v with
  | PNone => false
  | PBool b => b
  | PInt z => negb (z =? 0)
  | PFloat (S754_zero _) => false
  | PFloat _ => true
  | PStr s => negb (String.eqb s "")
  | PList l => match l with [] => false | _ :: _ => true end
  | PDict d => match d with [] => false | _ :: _ => true end
  end.

(** The value of [a or b] for two values. *)
Definition py_or (a b : pyval) : pyval := if truthy a then a else b.

Fixpoint lookup (k : string) (d : list (string * pyval)) : option pyval :=
  match d with
  | [] => None
  | (k', v) :: d' => if String.eqb k k' then Some v else lookup k d'
  end.

(** [d[k] = v]: an existing key keeps its place. *)
Fixpoint dict_set (k : string) (v : pyval) (d : list (string * pyval))
  : list (string * pyval) :=
  match d with
  | [] => [(k, v)]
  | (k', v') :: d' =>
      if String.eqb k k' then (k, v) :: d' else (k', v') :: dict_set k v d'
  end.

(** The value found under a key, or the default. *)
Definition or_default (o : option pyval) (default : pyval) : pyval :=
  match o with Some v => v | None => default end.

(** [x.get(k, default)]: only a dict has the method. *)
Definition py_get (x : pyval) (k : string) (default : pyval) : result pyval :=
  match x with
  | PDict d => Ok (match lookup k d with Some v => v | None => default end)
  | _ => Err AttributeError
  end.

(** [x[k]] for a string [k]. *)
Definition py_getitem (x : pyval) (k : string) : result pyval :=
  match x with
  | PDict d => match lookup k d with Some v => Ok v | None => Err (KeyError k) end
  | _ => Err TypeError
  end.

(** [list(x)]: the elements of a list, the characters of a string, the
    keys of a dict; nothing else met here is iterable. *)
Definition py_iter (x : pyval) : result (list pyval) :=
  match x with
  | PList l => Ok l
  | PStr s => Ok (map (fun c => PStr (String c "")) (list_ascii_of_string s))
  | PDict d => Ok (map (fun kv => PStr (fst kv)) d)
  | _ => Err TypeError
  end.

(** [float(v)]. *)
Definition py_float (v : pyval) : result PyFloat.float :=
  match v with
  | PFloat f => Ok f
  | PInt z =>
      let f := PyFloat.round_Z z in
      if PyFloat.is_inf f then Err OverflowError else Ok f
  | PBool b => Ok (PyFloat.round_Z (if b then 1 else 0))
  | PStr s =>
      match PyFloat.of_string s with
      | Some f => Ok f
      | None => Err ValueError
      end
  | PNone | PList _ | PDict _ => Err TypeError
  end.

Definition isinstance_list (v : pyval) : bool :=
  match v with PList _ => true | _ => false end.

(** *** [sorted(t, key=kf, reverse=True)]

    [list.sort] computes every key first, in list order, and the first
    key that raises ends the call.  The sort is stable; with
    [reverse=True] the list is reversed, sorted upwards, and reversed
    again.  The upward sort is given here by insertion, which is the
    result of [list.sort] whenever [<] orders the keys (every float but
    NaN); with NaN keys the result of [list.sort] depends on the merge
    strategy and is not described by this definition. *)

Section Sorted.
Variable kf : pyval -> result PyFloat.float.

Fixpoint keyed (l : list pyval) : result (list (PyFloat.float * pyval)) :=
  match l with
  | [] => Ok []
  | x :: l' =>
      rbind (kf x) (fun k =>
      rbind (keyed l') (fun r => Ok ((k, x) :: r)))
  end.

Fixpoint insert (x : PyFloat.float * pyval)
                (l : list (PyFloat.float * pyval)) :=
  match l with
  | [] => [x]
  | y :: l' =>
      if PyFloat.ltb (fst x) (fst y) then x :: l else y :: insert x l'
  end.

Definition sort_up (l : list (PyFloat.float * pyval)) :=
  fold_left (fun acc x => insert x acc) l [].

Definition sorted_reverse (t : pyval) : result (list pyval) :=
  rbind (py_iter t) (fun l =>
  rbind (keyed l) (fun ks =>
  Ok (map snd (rev (sort_up (rev ks)))))).
End Sorted.

(** No key of a decorated list is NaN. *)
Definition keys_ok (l : list (PyFloat.float * pyval)) : Prop :=
  forall y, In y l -> PyFloat.is_nan (fst y) = false.

(** [l[0]]. *)
Definition first (l : list pyval) : result pyval :=
  match l with
  | x :: _ => Ok x
  | [] => Err IndexError
  end.

End Py.
Import Py.

(** ** The HTTP client and the lender *)

Module Http.

Inductive method := GET | POST.

Inductive header_value :=
| HStr (s : string)
| HBasic (credential : option string)   (* the configured BASIC_AUTH *)
| HBearer (token : pyval).              (* f"Bearer {token}" *)

(** A value of [params=] or [data=]: as given, or passed through [str]
    by the handler (the text [str] produces is not needed below). *)
Inductive field :=
| Val (v : pyval)
| StrOf (v : pyval).

Record request := {
  meth : method;
  url : string;
  headers : list (string * header_value);
  fields : list (string * field)   (* params of a GET, data of a POST *)
}.

(** What the handlers read from a response: the status, the
    content-type header, the body text, and what [r.json()] yields
    ([None] when the body is not JSON). *)
Record response := {
  status_code : Z;
  content_type : option string;
  text : string;
  json_body : option pyval
}.

Inductive reply :=
| Reply (r : response)
| NoReply.       (* the client raises instead of returning *)

Definition exchange : Type := request * reply.

(** The lender answers a request, knowing the exchanges so far. *)
Definition lender : Type := list exchange -> request -> reply.

(** [r.headers.get("content-type", "")]. *)
Definition header_content_type (r : response) : string :=
  match content_type r with Some s => s | None => "" end.

(** [r.json()]. *)
Definition json (r : response) : result pyval :=
  match json_body r with Some j => Ok j | None => Err JSONDecodeError end.

Fixpoint field_get (k : string) (l : list (string * field)) : option field :=
  match l with
  | [] => None
  | (k', v) :: l' => if String.eqb k k' then Some v else field_get k l'
  end.

End Http.
Import Http.

(** ** The application *)

Module App.

(** Environment configuration read at start-up (lines 9-12). *)
Record config := {
  FACTA_BASE : string;
  BASIC_AUTH : option string;
  LOGIN_CERT : string;
  TIMEOUT : Z
}.

(** The [detail] argument of each [HTTPException] the handlers raise:
    one constructor per message of the source.
    - [HtmlWafToken]: "FACTA retornou pagina HTML (WAF). Peca whitelist de IP." (line 25)
    - [TokenError t]: f"Token error: {r.text}" (line 27)
    - [TokenVazio j]: f"Token vazio: {j}" (line 31)
    - [HtmlWafConsulta]: "FACTA retornou HTML (WAF). Peca whitelist de IP." (line 105)
    - [ConsultaError t]: f"Consulta error: {r.text}" (line 109)
    - [SemTabela]: "Sem tabela disponivel para os parametros informados." (line 137)
    - [FalhaEtapa1 j2], [FalhaEtapa2 j3], [FalhaEtapa3 j4]:
      f"Falha etapa1: {j2}" and so on (lines 155, 164, 174). *)
Inductive detail :=
| HtmlWafToken
| TokenError (text : string)
| TokenVazio (j : pyval)
| HtmlWafConsulta
| ConsultaError (text : string)
| SemTabela
| FalhaEtapa1 (j2 : pyval)
| FalhaEtapa2 (j3 : pyval)
| FalhaEtapa3 (j4 : pyval).

(** How a handler can end other than by returning: an [HTTPException]
    it raised itself, or an exception nothing catches (the framework
    then answers 500). *)
Inductive exn :=
| HTTPException (status : Z) (d : detail)
| Uncaught (e : pyerror).

Inductive outcome (A : Type) :=
| Return (a : A)
| Raise (e : exn).
Arguments Return {A} a.
Arguments Raise {A} e.

(** State (the exchanges so far, oldest first) and exceptions. *)
Definition M (A : Type) : Type :=
  lender -> list exchange -> list exchange * outcome A.

Definition ret {A} (a : A) : M A := fun _ tr => (tr, Return a).

Definition raise {A} (e : exn) : M A := fun _ tr => (tr, Raise e).

Definition bind {A B} (m : M A) (k : A -> M B) : M B :=
  fun L tr =>
    match m L tr with
    | (tr', Return a) => k a L tr'
    | (tr', Raise e) => (tr', Raise e)
    end.

Declare Scope app_scope.
Delimit Scope app_scope with app.
Notation "x <- m ;; k" := (bind m (fun x => k))
  (at level 100, m at next level, right associativity) : app_scope.
Notation "m ;;; k" := (bind m (fun _ => k))
  (at level 100, right associativity) : app_scope.
Local Open Scope app_scope.

(** A Python operation that may raise, run inside a handler. *)
Definition py {A} (r : result A) : M A :=
  match r with
  | Ok a => ret a
  | Err e => raise (Uncaught e)
  end.

(** [await cx.get(...)] / [await cx.post(...)]: the request is recorded
    with what came back; when nothing comes back the client's exception
    is raised in the handler.  The client is taken to accept the request
    it is given: one that it cannot put on the wire (a credential that is
    not set, a header value that cannot be encoded) makes the real client
    raise before anything is sent, and such a run makes fewer requests
    than are recorded here. *)
Definition send (rq : request) : M response :=
  fun L tr =>
    let rp := L tr rq in
    ((tr ++ [(rq, rp)])%list,
     match rp with
     | Reply r => Return r
     | NoReply => Raise (Uncaught RequestError)
     end).

Definition run {A} (m : M A) (L : lender) : list exchange * outcome A :=
  m L [].

Definition is_html (r : response) : bool :=
  String.prefix "text/html" (header_content_type r).

(** *** [digits] (lines 16-17) *)

(** [re.sub(r"\D", "", s)]: every character that is not a decimal digit
    is replaced by nothing. *)
Fixpoint re_sub_nondigit (s : string) : string :=
  match s with
  | EmptyString => EmptyString
  | String c s' =>
      if PyFloat.is_digit c then String c (re_sub_nondigit s')
      else re_sub_nondigit s'
  end.

(** The argument may be [None] ([s or ""]). *)
Definition digits (s : option string) : string :=
  re_sub_nondigit (match s with Some s => s | None => "" end).

(** *** Input schemas (lines 35-90) *)

Module ConsultaIn.
Record t := {
  nome : string;
  cpf : string;
  data_nascimento : string;
  meses_vinculo : option Z;
  renda : option PyFloat.float;
  canal : option string;
  origem : option string;
  id_contato : option string;
  telefone : option string
}.
End ConsultaIn.

Module FormalizarIn.
Record t := {
  cpf : string;
  data_nascimento : string;
  renda : PyFloat.float;
  sexo : string;
  opcao_valor : Z;
  valor_parcela : PyFloat.float;
  prazo : Z;
  nome : string;
  estado_civil : string;
  rg : string;
  estado_rg : string;
  orgao_emissor : string;
  data_expedicao : string;
  estado_natural : string;
  cidade_natural : string;
  nacionalidade : string;
  celular : string;
  cep : string;
  endereco : string;
  numero : string;
  bairro : string;
  estado : string;
  cidade : string;
  nome_mae : string;
  nome_pai : string;
  valor_patrimonio : string;
  cliente_iletrado_impossibilitado : string;
  tipo_conta : string;
  banco : string;
  agencia : string;
  conta : string;
  tipo_chave_pix : string;
  chave_pix : string;
  matricula : string;
  cnpj_empregador : string;
  data_admissao : string
}.

(** [body.model_dump()]: every field, in declaration order. *)
Definition model_dump (b : t) : list (string * pyval) :=
  [ ("cpf", PStr (cpf b));
    ("data_nascimento", PStr (data_nascimento b));
    ("renda", PFloat (renda b));
    ("sexo", PStr (sexo b));
    ("opcao_valor", PInt (opcao_valor b));
    ("valor_parcela", PFloat (valor_parcela b));
    ("prazo", PInt (prazo b));
    ("nome", PStr (nome b));
    ("estado_civil", PStr (estado_civil b));
    ("rg", PStr (rg b));
    ("estado_rg", PStr (estado_rg b));
    ("orgao_emissor", PStr (orgao_emissor b));
    ("data_expedicao", PStr (data_expedicao b));
    ("estado_natural", PStr (estado_natural b));
    ("cidade_natural", PStr (cidade_natural b));
    ("nacionalidade", PStr (nacionalidade b));
    ("celular", PStr (celular b));
    ("cep", PStr (cep b));
    ("endereco", PStr (endereco b));
    ("numero", PStr (numero b));
    ("bairro", PStr (bairro b));
    ("estado", PStr (estado b));
    ("cidade", PStr (cidade b));
    ("nome_mae", PStr (nome_mae b));
    ("nome_pai", PStr (nome_pai b));
    ("valor_patrimonio", PStr (valor_patrimonio b));
    ("cliente_iletrado_impossibilitado",
       PStr (cliente_iletrado_impossibilitado b));
    ("tipo_conta", PStr (tipo_conta b));
    ("banco", PStr (banco b));
    ("agencia", PStr (agencia b));
    ("conta", PStr (conta b));
    ("tipo_chave_pix", PStr (tipo_chave_pix b));
    ("chave_pix", PStr (chave_pix b));
    ("matricula", PStr (matricula b));
    ("cnpj_empregador", PStr (cnpj_empregador b));
    ("data_admissao", PStr (data_admissao b)) ].
End FormalizarIn.

Section Handlers.
Variable cfg : config.

Definition user_agent : string * header_value :=
  ("User-Agent", HStr "helena-facta-api/1.0").

(** *** [get_token] (lines 19-32) *)

(** The request of lines 20 and 22. *)
Definition token_request : request :=
  {| meth := GET;
     url := FACTA_BASE cfg ++ "/gera-token";
     headers := [ ("Authorization", HBasic (BASIC_AUTH cfg));
                  ("Accept", HStr "application/json");
                  user_agent ];
     fields := [] |}.

Definition get_token : M pyval :=
  r <- send token_request ;;
  if is_html r then raise (HTTPException 502 HtmlWafToken)
  else if negb (status_code r =? 200) then
    raise (HTTPException 502 (TokenError (text r)))
  else
    j <- py (json r) ;;
    token <- py (py_get j "token" PNone) ;;
    if negb (truthy token) then raise (HTTPException 502 (TokenVazio j))
    else ret token.

(** *** [health] (lines 92-94) *)
Definition health : M pyval := ret (PDict [("ok", PBool true)]).

(** *** [consulta_ofertas] (lines 96-116) *)

(** The request of lines 99-103. *)
Definition consulta_request (token : pyval) (cpf : string) : request :=
  {| meth := GET;
     url := FACTA_BASE cfg ++ "/consignado-trabalhador/consulta-ofertas";
     headers := [ ("Authorization", HBearer token);
                  ("Accept", HStr "application/json");
                  user_agent ];
     fields := [("cpf", Val (PStr cpf))] |}.

(** One pass of the loop of lines 113-115. *)
Definition normaliza (d : pyval) : result pyval :=
  rbind (py_get d "oferta" PNone) (fun o =>
  rbind (if truthy o then Ok o else py_get d "descricao" PNone) (fun oferta =>
  rbind (py_get d "resposta" PNone) (fun r =>
  rbind (if truthy r then Ok r else py_get d "situacao" PNone) (fun resposta =>
  Ok (PDict [("oferta", oferta); ("resposta", resposta)]))))).

Fixpoint normaliza_todas (l : list pyval) : result (list pyval) :=
  match l with
  | [] => Ok []
  | d :: l' =>
      rbind (normaliza d) (fun o =>
      rbind (normaliza_todas l') (fun r => Ok (o :: r)))
  end.

(** Line 110: [j.get("dados") or j.get("ofertas") or []]. *)
Definition ofertas_raw_of (j : pyval) : result pyval :=
  rbind (py_get j "dados" PNone) (fun a =>
  if truthy a then Ok a
  else rbind (py_get j "ofertas" PNone) (fun b =>
       if truthy b then Ok b else Ok (PList []))).

(** Lines 111-115. *)
Definition ofertas_of (ofertas_raw : pyval) : result (list pyval) :=
  match ofertas_raw with
  | PList l => normaliza_todas l
  | _ => Ok []
  end.

(** Line 116. *)
Definition consulta_result (cpf : string) (ofertas : list pyval) : pyval :=
  PDict [ ("status", PStr "ok");
          ("cpf", PStr cpf);
          ("total_ofertas", PInt (Z.of_nat (List.length ofertas)));
          ("ofertas", PList ofertas) ].

Definition consulta_ofertas (body : ConsultaIn.t) : M pyval :=
  token <- get_token ;;
  let cpf := digits (Some (ConsultaIn.cpf body)) in
  r <- send (consulta_request token cpf) ;;
  if is_html r then raise (HTTPException 502 HtmlWafConsulta)
  else
    j <- match json r with
         | Ok j => ret j
         | Err _ => raise (HTTPException 502 (ConsultaError (text r)))
         end ;;
    ofertas_raw <- py (ofertas_raw_of j) ;;
    ofertas <- py (ofertas_of ofertas_raw) ;;
    ret (consulta_result cpf ofertas).

(** *** [formalizar] (lines 118-179) *)

(** Line 121: the headers [h] of every call of the workflow. *)
Definition bearer_headers (token : pyval) : list (string * header_value) :=
  [ ("Authorization", HBearer token); user_agent ].

(** A call of the workflow: method, path under the base URL, and the
    [params=] or [data=] dictionary. *)
Definition call (m : method) (path : string)
           (h : list (string * header_value))
           (fs : list (string * field)) : request :=
  {| meth := m; url := FACTA_BASE cfg ++ path; headers := h; fields := fs |}.

(** The query parameters of lines 126-134. *)
Definition operacoes_params (cpf : string) (body : FormalizarIn.t)
  : list (string * field) :=
  [ ("produto", Val (PStr "D"));
    ("tipo_operacao", Val (PStr "13"));
    ("averbador", Val (PStr "10010"));
    ("convenio", Val (PStr "3"));
    ("opcao_valor", Val (PInt (FormalizarIn.opcao_valor body)));
    ("valor_parcela", Val (PFloat (FormalizarIn.valor_parcela body)));
    ("prazo", Val (PInt (FormalizarIn.prazo body)));
    ("cpf", Val (PStr cpf));
    ("data_nascimento", Val (PStr (FormalizarIn.data_nascimento body)));
    ("valor_renda", Val (PFloat (FormalizarIn.renda body))) ].

(** The key of line 138: [float(x.get("valor_liquido", 0))]. *)
Definition valor_liquido_key (x : pyval) : result PyFloat.float :=
  rbind (py_get x "valor_liquido" (PInt 0)) py_float.

(** Line 138. *)
Definition select_best (t : pyval) : result pyval :=
  rbind (sorted_reverse valor_liquido_key t) first.

(** The form [fd1] of lines 141-150; the entries are evaluated in order. *)
Definition simulador_form (cpf : string) (body : FormalizarIn.t)
           (best : pyval) : result (list (string * field)) :=
  rbind (py_getitem best "codigoTabela") (fun codigo_tabela =>
  rbind (py_getitem best "prazo") (fun prazo =>
  rbind (py_get best "valor_liquido" (PInt 0)) (fun vl =>
  rbind (py_get best "contrato" vl) (fun valor_operacao =>
  rbind (py_get best "parcela" (PInt 0)) (fun parcela =>
  rbind (py_get best "coeficiente" PNone) (fun coeficiente =>
  Ok [ ("produto", Val (PStr "D"));
       ("tipo_operacao", Val (PStr "13"));
       ("averbador", Val (PStr "10010"));
       ("convenio", Val (PStr "3"));
       ("cpf", Val (PStr cpf));
       ("data_nascimento", Val (PStr (FormalizarIn.data_nascimento body)));
       ("login_certificado", Val (PStr (LOGIN_CERT cfg)));
       ("codigo_tabela", StrOf codigo_tabela);
       ("prazo", StrOf prazo);
       ("valor_operacao", StrOf valor_operacao);
       ("valor_parcela", StrOf parcela);
       ("coeficiente", StrOf coeficiente) ])))))).

Definition as_fields (d : list (string * pyval)) : list (string * field) :=
  map (fun kv => (fst kv, Val (snd kv))) d.

(** The form [fd2] of lines 158-159. *)
Definition dados_pessoais_form (cpf : string) (body : FormalizarIn.t)
           (id_sim : pyval) : list (string * field) :=
  as_fields (dict_set "cpf" (PStr cpf)
               (dict_set "id_simulador" id_sim
                  (FormalizarIn.model_dump body))).

(** The form [fd3] of line 167. *)
Definition proposta_form (codigo_cliente id_sim : pyval)
  : list (string * field) :=
  [ ("codigo_cliente", Val codigo_cliente);
    ("id_simulador", Val id_sim);
    ("tipo_formalizacao", Val (PStr "DIG")) ].

(** The form of line 177. *)
Definition envio_link_form (codigo : pyval) : list (string * field) :=
  [ ("codigo_af", Val codigo);
    ("tipo_envio", Val (PStr "Whatsapp")) ].

(** Line 179. *)
Definition formalizar_result (codigo url_form : pyval) : pyval :=
  PDict [ ("status", PStr "ok");
          ("mensagem", PStr "Proposta criada e link enviado.");
          ("codigo", codigo);
          ("url_formalizacao", url_form) ].

Definition formalizar (body : FormalizarIn.t) : M pyval :=
  token <- get_token ;;
  let h := bearer_headers token in
  let cpf := digits (Some (FormalizarIn.cpf body)) in
  (* 1) operacoes disponiveis *)
  r1 <- send (call GET "/proposta/operacoes-disponiveis" h
                (operacoes_params cpf body)) ;;
  j1 <- py (json r1) ;;
  t <- py (py_get j1 "tabelas" (PList [])) ;;
  if negb (truthy t) then raise (HTTPException 400 SemTabela)
  else
    best <- py (select_best t) ;;
    (* 2) etapa 1 - simulador *)
    fd1 <- py (simulador_form cpf body best) ;;
    r2 <- send (call POST "/proposta/etapa1-simulador" h fd1) ;;
    j2 <- py (json r2) ;;
    id_sim <- py (py_get j2 "id_simulador" PNone) ;;
    if negb (truthy id_sim) then raise (HTTPException 502 (FalhaEtapa1 j2))
    else
      (* 3) etapa 2 - dados pessoais *)
      let fd2 := dados_pessoais_form cpf body id_sim in
      r3 <- send (call POST "/proposta/etapa2-dados-pessoais" h fd2) ;;
      j3 <- py (json r3) ;;
      codigo_cliente <- py (py_get j3 "codigo_cliente" PNone) ;;
      if negb (truthy codigo_cliente) then
        raise (HTTPException 502 (FalhaEtapa2 j3))
      else
        (* 4) etapa 3 - proposta/cadastro *)
        let fd3 := proposta_form codigo_cliente id_sim in
        r4 <- send (call POST "/proposta/etapa3-proposta-cadastro" h fd3) ;;
        j4 <- py (json r4) ;;
        codigo <- py (py_get j4 "codigo" PNone) ;;
        url_form <- py (py_get j4 "url_formalizacao" PNone) ;;
        if negb (truthy codigo) then
          raise (HTTPException 502 (FalhaEtapa3 j4))
        else
          (* 5) envio de link ao cliente *)
          send (call POST "/proposta/envio-link" h (envio_link_form codigo)) ;;;
          ret (formalizar_result codigo url_form).

End Handlers.

(** A configuration: the defaults of lines 9-12 and a credential of the
    shape line 10 asks for. *)
Definition sample_config : config :=
  {| FACTA_BASE := "https://webservice-homol.facta.com.br";
     BASIC_AUTH := Some "Basic dXN1YXJpbzpzZW5oYQ==";
     LOGIN_CERT := "96676";
     TIMEOUT := 45 |}.

End App.
Import App.

(** ** The error kinds of the specification

    The handlers signal every failure of their own with an
    [HTTPException]; the specification names the failures by kind.  Each
    message of the source is read as the kind the specification gives to
    the situation in which it is raised; an exception that no handler
    raises on purpose has no kind of its own. *)

Module Spec.

Inductive error_kind :=
| UpstreamBlocked
| UpstreamProtocolError
| UpstreamUnavailable
| NoEligibleTable
| StepFailed (step : string) (raw : pyval)
| Unclassified.

Definition classify (e : exn) : error_kind :=
  match e with
  | HTTPException _ HtmlWafToken => UpstreamBlocked
  | HTTPException _ HtmlWafConsulta => UpstreamBlocked
  | HTTPException _ (TokenError _) => UpstreamUnavailable
  | HTTPException _ (TokenVazio _) => UpstreamProtocolError
  | HTTPException _ (ConsultaError _) => UpstreamProtocolError
  | HTTPException _ SemTabela => NoEligibleTable
  | HTTPException _ (FalhaEtapa1 j2) => StepFailed "simulate" j2
  | HTTPException _ (FalhaEtapa2 j3) => StepFailed "register" j3
  | HTTPException _ (FalhaEtapa3 j4) => StepFailed "proposal" j4
  | Uncaught _ => Unclassified
  end.

(** The kind of failure of a handler's outcome, if it failed. *)
Definition failure {A} (o : outcome A) : option error_kind :=
  match o with
  | Return _ => None
  | Raise e => Some (classify e)
  end.

(** The digits-only subsequence of an id number, in original order. *)
Definition digits_only (s : string) : string :=
  string_of_list_ascii (filter PyFloat.is_digit (list_ascii_of_string s)).

(** *** Net value

    The net value of a candidate is the number its [valor_liquido] field
    holds: a JSON number, or a string that reads as one.  Its value is
    the binary64 number nearest to it; an integer beyond the range of
    binary64 has none. *)
Definition net_value (x : pyval) : option PyFloat.float :=
  match x with
  | PDict d =>
      match lookup "valor_liquido" d with
      | Some (PFloat f) => Some f
      | Some (PInt z) =>
          let f := PyFloat.round_Z z in
          if PyFloat.is_inf f then None else Some f
      | Some (PStr s) => PyFloat.of_string s
      | _ => None
      end
  | _ => None
  end.

(** [best] is the candidate of [l] with the maximum net value, the first
    one in [l] among those that share it: every candidate before it has
    a smaller net value, no candidate after it a greater one. *)
Definition first_maximum (l : list pyval) (best : pyval) : Prop :=
  exists pre post kb,
    l = (pre ++ best :: post)%list /\
    net_value best = Some kb /\
    (forall x, In x pre ->
       exists k, net_value x = Some k /\ PyFloat.ltb k kb = true) /\
    (forall x, In x post ->
       exists k, net_value x = Some k /\ PyFloat.ltb kb k = false).

(** *** Reading a reply

    The content type of a response indicates an HTML page when it begins
    with [text/html]. *)
Definition html_content (r : response) : Prop :=
  exists rest, content_type r = Some ("text/html" ++ rest)%string.

(** The value an object holds under a key, null when it holds none. *)
Definition value_at (d : list (string * pyval)) (k : string) : pyval :=
  match lookup k d with Some v => v | None => PNone end.

(** A value that counts as absent: null, false, a zero, the empty string,
    the empty list, the empty object. *)
Definition blank (v : pyval) : bool :=
  match v with
  | PNone => true
  | PBool b => negb b
  | PInt z => z =? 0
  | PFloat f => match f with S754_zero _ => true | _ => false end
  | PStr s => String.eqb s ""
  | PList l => match l with [] => true | _ => false end
  | PDict d => match d with [] => true | _ => false end
  end.

(** The first of two values unless it counts as absent, else the second. *)
Definition first_present (a b : pyval) : pyval := if blank a then b else a.

(** The offers of a lookup reply: what it holds under [dados], else under
    [ofertas], else no offer. *)
Definition offers_value (d : list (string * pyval)) : pyval :=
  first_present (value_at d "dados")
    (first_present (value_at d "ofertas") (PList [])).

(** The offer of an entry: its description is read under [oferta], else
    under [descricao]; its status under [resposta], else under
    [situacao]. *)
Definition offer_of (e : list (string * pyval)) : pyval :=
  PDict [ ("oferta",
           first_present (value_at e "oferta") (value_at e "descricao"));
          ("resposta",
           first_present (value_at e "resposta") (value_at e "situacao")) ].

(** The answer of the offer query for an id number and its offers. *)
Definition offers_answer (cpf : string) (offers : list pyval) : pyval :=
  PDict [ ("status", PStr "ok");
          ("cpf", PStr (digits_only cpf));
          ("total_ofertas", PInt (Z.of_nat (List.length offers)));
          ("ofertas", PList offers) ].

End Spec.
Import Spec.

(** ** Sample inputs

    Concrete applicants, lender replies and lenders, used to run the
    handlers on explicit inputs. *)

Module Samples.

Definition consulta_body : ConsultaIn.t :=
  {| ConsultaIn.nome := "Maria Silva";
     ConsultaIn.cpf := "123.456.789-09";
     ConsultaIn.data_nascimento := "01/02/1980";
     ConsultaIn.meses_vinculo := None;
     ConsultaIn.renda := None;
     ConsultaIn.canal := Some "chatbot";
     ConsultaIn.origem := Some "helena";
     ConsultaIn.id_contato := None;
     ConsultaIn.telefone := None |}.

Definition formalizar_body : FormalizarIn.t :=
  {| FormalizarIn.cpf := "123.456.789-09";
     FormalizarIn.data_nascimento := "01/02/1980";
     FormalizarIn.renda := PyFloat.round_Z 3000;
     FormalizarIn.sexo := "F";
     FormalizarIn.opcao_valor := 1;
     FormalizarIn.valor_parcela := PyFloat.round_Z 250;
     FormalizarIn.prazo := 24;
     FormalizarIn.nome := "Maria Silva";
     FormalizarIn.estado_civil := "S";
     FormalizarIn.rg := "1234567";
     FormalizarIn.estado_rg := "RS";
     FormalizarIn.orgao_emissor := "SSP";
     FormalizarIn.data_expedicao := "01/01/2000";
     FormalizarIn.estado_natural := "RS";
     FormalizarIn.cidade_natural := "Porto Alegre";
     FormalizarIn.nacionalidade := "1";
     FormalizarIn.celular := "51999990000";
     FormalizarIn.cep := "90000000";
     FormalizarIn.endereco := "Rua A";
     FormalizarIn.numero := "10";
     FormalizarIn.bairro := "Centro";
     FormalizarIn.estado := "RS";
     FormalizarIn.cidade := "Porto Alegre";
     FormalizarIn.nome_mae := "Ana Silva";
     FormalizarIn.nome_pai := "Jose Silva";
     FormalizarIn.valor_patrimonio := "1";
     FormalizarIn.cliente_iletrado_impossibilitado := "N";
     FormalizarIn.tipo_conta := "C";
     FormalizarIn.banco := "001";
     FormalizarIn.agencia := "1234";
     FormalizarIn.conta := "56789";
     FormalizarIn.tipo_chave_pix := "1";
     FormalizarIn.chave_pix := "12345678909";
     FormalizarIn.matricula := "M1";
     FormalizarIn.cnpj_empregador := "00000000000191";
     FormalizarIn.data_admissao := "01/01/2020" |}.

(** A 200 response whose body is the JSON value [j]. *)
Definition json_response (j : pyval) : response :=
  {| status_code := 200;
     content_type := Some "application/json";
     text := "";
     json_body := Some j |}.

Definition json_reply (j : pyval) : reply := Reply (json_response j).

(** The page of a network-edge defence layer. *)
Definition html_page : response :=
  {| status_code := 403;
     content_type := Some "text/html; charset=UTF-8";
     text := "<html><body>Access denied</body></html>";
     json_body := None |}.

(** A lender that answers by the path of the request; it does not reply
    on a path that the script does not list. *)
Definition scripted (cfg : config) (script : list (string * reply)) : lender :=
  fun _ rq =>
    match find (fun p => String.eqb (url rq) (FACTA_BASE cfg ++ fst p)) script with
    | Some p => snd p
    | None => NoReply
    end.

Definition token_ok : string * reply :=
  ("/gera-token", json_reply (PDict [("token", PStr "abc")])).

Definition table (codigo : Z) (prazo : Z) (valor_liquido : pyval) : pyval :=
  PDict [ ("codigoTabela", PInt codigo);
          ("prazo", PInt prazo);
          ("valor_liquido", valor_liquido) ].

Definition operacoes (tabelas : list pyval) : string * reply :=
  ("/proposta/operacoes-disponiveis",
   json_reply (PDict [("tabelas", PList tabelas)])).

Definition simulador_ok : string * reply :=
  ("/proposta/etapa1-simulador",
   json_reply (PDict [("id_simulador", PStr "sim-1")])).

Definition dados_ok : string * reply :=
  ("/proposta/etapa2-dados-pessoais",
   json_reply (PDict [("codigo_cliente", PInt 77)])).

Definition proposta_ok : string * reply :=
  ("/proposta/etapa3-proposta-cadastro",
   json_reply (PDict [ ("codigo", PStr "AF-9");
                       ("url_formalizacao", PStr "https://facta.example/f/AF-9") ])).

Definition envio_link_path : string := "/proposta/envio-link".

Definition consulta_path : string := "/consignado-trabalhador/consulta-ofertas".

(** Scenario C of the specification: net values 1000 and 1500. *)
Definition two_tables : list pyval :=
  [ table 1 24 (PInt 1000); table 2 24 (PStr "1500.00") ].

(** Two candidates share the maximum net value. *)
Definition tie_tables : list pyval :=
  [ table 1 24 (PInt 1000); table 2 24 (PStr "1500.00");
    table 3 36 (PInt 1500) ].

(** The second candidate has a net value that is not a number. *)
Definition not_numeric_tables : list pyval :=
  [ table 1 24 (PInt 1000); table 3 24 (PStr "abc") ].

(** The only candidate has no [prazo]. *)
Definition no_prazo_tables : list pyval :=
  [ PDict [("codigoTabela", PInt 5); ("valor_liquido", PInt 900)] ].

(** An error reply to the send-link call. *)
Definition server_error : response :=
  {| status_code := 500;
     content_type := Some "application/json";
     text := "erro";
     json_body := None |}.

(** Every step succeeds; the send-link call gets an error reply. *)
Definition lender_all_steps : lender :=
  scripted sample_config
    [ token_ok; operacoes two_tables; simulador_ok; dados_ok; proposta_ok;
      (envio_link_path, Reply server_error) ].

(** Every step succeeds; the send-link call gets no reply at all. *)
Definition lender_link_unreachable : lender :=
  scripted sample_config
    [ token_ok; operacoes two_tables; simulador_ok; dados_ok; proposta_ok ].

(** The register step answers without a client code. *)
Definition register_refused : list (string * pyval) :=
  [("erro", PStr "cpf invalido")].

Definition lender_register_refused : lender :=
  scripted sample_config
    [ token_ok; operacoes two_tables; simulador_ok;
      ("/proposta/etapa2-dados-pessoais", json_reply (PDict register_refused));
      proposta_ok ].

(** Scenario B of the specification: no table is offered. *)
Definition lender_no_table : lender :=
  scripted sample_config
    [ token_ok; operacoes []; simulador_ok; dados_ok; proposta_ok ].

Definition lender_not_numeric : lender :=
  scripted sample_config
    [ token_ok; operacoes not_numeric_tables; simulador_ok; dados_ok;
      proposta_ok ].

Definition lender_no_prazo : lender :=
  scripted sample_config
    [ token_ok; operacoes no_prazo_tables; simulador_ok; dados_ok;
      proposta_ok ].

(** The token is issued; the available-operations call is answered by
    the page of the defence layer. *)
Definition lender_html_at_operacoes : lender :=
  scripted sample_config
    [ token_ok; ("/proposta/operacoes-disponiveis", Reply html_page) ].

(** The same page in answer to the offer lookup. *)
Definition lender_html_at_consulta : lender :=
  scripted sample_config [ token_ok; (consulta_path, Reply html_page) ].

(** Scenario A of the specification. *)
Definition lender_one_offer : lender :=
  scripted sample_config
    [ token_ok;
      (consulta_path,
       json_reply
         (PDict [("dados",
                  PList [PDict [ ("descricao", PStr "Refin");
                                 ("situacao", PStr "Aprovado") ]])])) ].

(** The offer lookup answers with a JSON array. *)
Definition lender_offers_array : lender :=
  scripted sample_config
    [ token_ok; (consulta_path, json_reply (PList [])) ].

(** The offer list holds a string instead of an object. *)
Definition lender_offers_of_strings : lender :=
  scripted sample_config
    [ token_ok;
      (consulta_path, json_reply (PDict [("dados", PList [PStr "Refin"])])) ].

End Samples.

(** ** The workflow as a sequence of calls *)

Module Workflow.

(** The calls of [formalizar], in the order of the source: method and
    URL of lines 22, 126, 151, 160, 168 and 177. *)
Definition workflow_calls (cfg : config) : list (method * string) :=
  [ (GET, FACTA_BASE cfg ++ "/gera-token");
    (GET, FACTA_BASE cfg ++ "/proposta/operacoes-disponiveis");
    (POST, FACTA_BASE cfg ++ "/proposta/etapa1-simulador");
    (POST, FACTA_BASE cfg ++ "/proposta/etapa2-dados-pessoais");
    (POST, FACTA_BASE cfg ++ "/proposta/etapa3-proposta-cadastro");
    (POST, FACTA_BASE cfg ++ "/proposta/envio-link") ]%string.

(** The calls of [consulta_ofertas]: lines 22 and 102. *)
Definition consulta_calls (cfg : config) : list (method * string) :=
  [ (GET, FACTA_BASE cfg ++ "/gera-token");
    (GET, FACTA_BASE cfg ++ "/consignado-trabalhador/consulta-ofertas") ]%string.

Definition call_of (x : exchange) : method * string :=
  (meth (fst x), url (fst x)).

(** The call came back with a response. *)
Definition replied (x : exchange) : bool :=
  match snd x with Reply _ => true | NoReply => false end.

Definition is_dict (v : pyval) : bool :=
  match v with PDict _ => true | _ => false end.

(** The request carries the pre-shared credential. *)
Definition has_basic (rq : request) : bool :=
  existsb (fun h => match snd h with HBasic _ => true | _ => false end)
          (headers rq).

(** Two decorated candidates with the same key, related by [P]. *)
Definition same_key (P : pyval -> pyval -> Prop)
           (p q : PyFloat.float * pyval) : Prop :=
  fst p = fst q /\ P (snd p) (snd q).

End Workflow.
Import Workflow.

(** ** Start-up configuration (lines 9-11) *)

Module Startup.

(** The process environment, once [load_dotenv()] has run. *)
Definition environ : Type := string -> option string.

(** [os.getenv(k, default)]. *)
Definition getenv_or (env : environ) (k default : string) : string :=
  match env k with Some v => v | None => default end.

(** [s.rstrip("/")]: the trailing slashes are dropped. *)
Fixpoint rstrip_slash (s : string) : string :=
  match s with
  | EmptyString => EmptyString
  | String c s' =>
      match rstrip_slash s' with
      | EmptyString =>
          if Ascii.eqb c "/"%char then EmptyString else String c EmptyString
      | r => String c r
      end
  end.

(** Line 9. *)
Definition facta_base (env : environ) : string :=
  rstrip_slash
    (getenv_or env "FACTA_BASE_URL" "https://webservice-homol.facta.com.br").

(** Line 10. *)
Definition basic_auth (env : environ) : option string :=
  env "FACTA_BASIC_AUTH".

(** Line 11. *)
Definition login_cert (env : environ) : string :=
  getenv_or env "LOGIN_CERTIFICADO" "96676".

(** The configuration of a process started in [env]; the timeout of
    line 12 is given, its conversion from text is not described here. *)
Definition config_of (env : environ) (timeout : Z) : config :=
  {| FACTA_BASE := facta_base env;
     BASIC_AUTH := basic_auth env;
     LOGIN_CERT := login_cert env;
     TIMEOUT := timeout |}.

(** [n] slashes. *)
Fixpoint slashes (n : nat) : string :=
  match n with
  | O => EmptyString
  | S n' => String "/"%char (slashes n')
  end.

(** The last character of a string, if any. *)
Fixpoint last_char (s : string) : option ascii :=
  match s with
  | EmptyString => None
  | String c EmptyString => Some c
  | String _ s' => last_char s'
  end.

(** An environment with one variable set. *)
Definition setenv (k v : string) (env : environ) : environ :=
  fun k' => if String.eqb k' k then Some v else env k'.

Definition empty_env : environ := fun _ => None.

End Startup.
Import Startup.

(** ** More sample lenders *)

Module MoreSamples.
Import Samples.

(** Nothing answers. *)
Definition lender_silent : lender := scripted sample_config [].

(** The token endpoint answers with a JSON array. *)
Definition lender_token_array : lender :=
  scripted sample_config [ ("/gera-token", json_reply (PList [])) ].

(** The token endpoint answers with the page of the defence layer. *)
Definition lender_token_html : lender :=
  scripted sample_config [ ("/gera-token", Reply html_page) ].

(** The token endpoint answers with an error status. *)
Definition lender_token_down : lender :=
  scripted sample_config [ ("/gera-token", Reply server_error) ].

(** The token endpoint answers with an object whose token is empty. *)
Definition lender_token_empty : lender :=
  scripted sample_config
    [ ("/gera-token", json_reply (PDict [("token", PStr "")])) ].

(** The token endpoint answers with an object that has no token. *)
Definition lender_token_missing : lender :=
  scripted sample_config
    [ ("/gera-token", json_reply (PDict [("erro", PStr "login invalido")])) ].

(** The offer lookup answers with an object that lists no offer. *)
Definition lender_no_offer : lender :=
  scripted sample_config
    [ token_ok; (consulta_path, json_reply (PDict [("mensagem", PStr "ok")])) ].

(** The offer lookup answers under [ofertas], with one entry in each
    spelling. *)
Definition lender_two_spellings : lender :=
  scripted sample_config
    [ token_ok;
      (consulta_path,
       json_reply
         (PDict [("dados", PList []);
                 ("ofertas",
                  PList [PDict [ ("oferta", PStr "Refin");
                                 ("resposta", PStr "Aprovado") ];
                         PDict [ ("descricao", PStr "Refin");
                                 ("situacao", PStr "Aprovado") ];
                         PDict [ ("codigo", PInt 3) ]])])) ].

(** The offer lookup answers with a body that is not JSON. *)
Definition lender_consulta_text : lender :=
  scripted sample_config [ token_ok; (consulta_path, Reply server_error) ].

(** The simulate step answers with a zero identifier. *)
Definition simulate_zero : list (string * pyval) :=
  [("id_simulador", PInt 0)].

Definition lender_simulate_zero : lender :=
  scripted sample_config
    [ token_ok; operacoes two_tables;
      ("/proposta/etapa1-simulador", json_reply (PDict simulate_zero));
      dados_ok; proposta_ok ].

(** The proposal step answers with a URL but no code. *)
Definition proposal_url_only : list (string * pyval) :=
  [("url_formalizacao", PStr "https://facta.example/f/0")].

Definition lender_proposal_url_only : lender :=
  scripted sample_config
    [ token_ok; operacoes two_tables; simulador_ok; dados_ok;
      ("/proposta/etapa3-proposta-cadastro",
       json_reply (PDict proposal_url_only)) ].

(** The register step answers with a JSON array. *)
Definition lender_register_array : lender :=
  scripted sample_config
    [ token_ok; operacoes two_tables; simulador_ok;
      ("/proposta/etapa2-dados-pessoais", json_reply (PList [])) ].

(** The table list is a text instead of a list. *)
Definition tabelas_text : list (string * pyval) :=
  [("tabelas", PStr "indisponivel")].

Definition lender_tabelas_text : lender :=
  scripted sample_config
    [ token_ok;
      ("/proposta/operacoes-disponiveis", json_reply (PDict tabelas_text)) ].

(** Two candidates with the net values of [two_tables] under other
    spellings, and nothing else. *)
Definition bare_tables : list pyval :=
  [ PDict [("valor_liquido", PStr "1000")];
    PDict [("valor_liquido", PStr "1.5e3")] ].

(** The body of the lookup reply of [lender_one_offer]. *)
Definition one_offer_body : pyval :=
  PDict [("dados",
          PList [PDict [ ("descricao", PStr "Refin");
                         ("situacao", PStr "Aprovado") ]])].

(** The requests of a run against the sample lenders. *)
Definition sample_headers : list (string * header_value) :=
  bearer_headers (PStr "abc").

Definition sample_operacoes_request : request :=
  call sample_config GET "/proposta/operacoes-disponiveis" sample_headers
    (operacoes_params "12345678909" formalizar_body).

(** The simulate call for the second table of [two_tables]. *)
Definition sample_simulador_request : request :=
  call sample_config POST "/proposta/etapa1-simulador" sample_headers
    match simulador_form sample_config "12345678909" formalizar_body
            (table 2 24 (PStr "1500.00")) with
    | Ok form => form
    | Err _ => []
    end.

Definition sample_dados_request : request :=
  call sample_config POST "/proposta/etapa2-dados-pessoais" sample_headers
    (dados_pessoais_form "12345678909" formalizar_body (PStr "sim-1")).

Definition sample_proposta_request : request :=
  call sample_config POST "/proposta/etapa3-proposta-cadastro" sample_headers
    (proposta_form (PInt 77) (PStr "sim-1")).

End MoreSamples.
Import MoreSamples.

(** * Properties *)

Import Samples.

(** ** The order of floats *)

Lemma ltb_rank (a b : PyFloat.float) :
  PyFloat.is_nan a = false -> PyFloat.is_nan b = false ->
  (PyFloat.ltb a b = true <-> PyFloat.lex_lt (PyFloat.rank a) (PyFloat.rank b)).
Proof.
  unfold PyFloat.ltb, SFltb, PyFloat.lex_lt.
  destruct a as [sa|sa| |sa ma ea], b as [sb|sb| |sb mb eb]; intros Ha Hb;
    try discriminate; simpl;
    try destruct sa; try destruct sb; simpl;
    try (split; [discriminate | lia]);
    try (split; [lia | reflexivity]).
  - change (Pos.compare_cont Eq ma mb) with (Pos.compare ma mb).
    destruct (Z.compare_spec ea eb), (Pos.compare_spec ma mb); simpl;
      split; intros; try discriminate; try reflexivity; try lia.
  - change (Pos.compare_cont Eq ma mb) with (Pos.compare ma mb).
    destruct (Z.compare_spec ea eb), (Pos.compare_spec ma mb); simpl;
      split; intros; try discriminate; try reflexivity; try lia.
Qed.

Lemma lex_lt_irrefl a : ~ PyFloat.lex_lt a a.
Proof. destruct a as [[a1 a2] a3]; unfold PyFloat.lex_lt; lia. Qed.

Lemma lex_lt_cotrans a b c :
  PyFloat.lex_lt a b -> PyFloat.lex_lt a c \/ PyFloat.lex_lt c b.
Proof.
  destruct a as [[a1 a2] a3], b as [[b1 b2] b3], c as [[c1 c2] c3];
    unfold PyFloat.lex_lt; lia.
Qed.

Lemma lex_lt_asym a b : PyFloat.lex_lt a b -> ~ PyFloat.lex_lt b a.
Proof.
  destruct a as [[a1 a2] a3], b as [[b1 b2] b3]; unfold PyFloat.lex_lt; lia.
Qed.

Lemma ltb_irrefl a : PyFloat.ltb a a = false.
Proof.
  destruct (PyFloat.is_nan a) eqn:Ha.
  - destruct a; try discriminate; reflexivity.
  - destruct (PyFloat.ltb a a) eqn:E; [|reflexivity].
    apply ltb_rank in E; auto. now apply lex_lt_irrefl in E.
Qed.

Lemma ltb_asym a b :
  PyFloat.is_nan a = false -> PyFloat.is_nan b = false ->
  PyFloat.ltb a b = true -> PyFloat.ltb b a = false.
Proof.
  intros Ha Hb H. destruct (PyFloat.ltb b a) eqn:E; [|reflexivity].
  apply ltb_rank in H, E; auto. now apply lex_lt_asym in H.
Qed.

Lemma ltb_cotrans a b c :
  PyFloat.is_nan a = false -> PyFloat.is_nan b = false ->
  PyFloat.is_nan c = false ->
  PyFloat.ltb a b = true -> PyFloat.ltb a c = true \/ PyFloat.ltb c b = true.
Proof.
  intros Ha Hb Hc H. apply ltb_rank in H; auto.
  destruct (lex_lt_cotrans _ _ (PyFloat.rank c) H); [left|right];
    apply ltb_rank; auto.
Qed.

(** ** The sort *)

Lemma insert_In x l y : In y (insert x l) <-> y = x \/ In y l.
Proof.
  induction l as [|z l IH]; simpl.
  - intuition.
  - destruct (PyFloat.ltb (fst x) (fst z)); simpl; [intuition|].
    rewrite IH. intuition.
Qed.

Lemma fold_insert_In l acc y :
  In y (fold_left (fun acc x => insert x acc) l acc) <-> In y l \/ In y acc.
Proof.
  revert acc; induction l as [|x l IH]; intros acc; simpl.
  - intuition.
  - rewrite IH, insert_In. intuition.
Qed.

Lemma sort_up_In l y : In y (sort_up l) <-> In y l.
Proof. unfold sort_up. rewrite fold_insert_In. simpl. intuition. Qed.

Lemma sort_up_snoc l x : sort_up (l ++ [x]) = insert x (sort_up l).
Proof. unfold sort_up. now rewrite fold_left_app. Qed.

(** Inserting below the last element leaves it last. *)
Lemma insert_last_below x l m :
  PyFloat.ltb (fst x) (fst m) = true ->
  exists l1, insert x (l ++ [m]) = (l1 ++ [m])%list.
Proof.
  intros H. induction l as [|z l [l1 IH]]; simpl.
  - rewrite H. now exists [x].
  - destruct (PyFloat.ltb (fst x) (fst z)).
    + now exists (x :: z :: l).
    + rewrite IH. now exists (z :: l1).
Qed.

(** An element that is below none of the list goes last. *)
Lemma insert_last_above x l :
  (forall y, In y l -> PyFloat.ltb (fst x) (fst y) = false) ->
  insert x l = (l ++ [x])%list.
Proof.
  induction l as [|z l IH]; simpl; intros H; [reflexivity|].
  rewrite (H z) by now left.
  rewrite IH; [reflexivity|]. intros; apply H; now right.
Qed.

(** The upward sort of the reversed list ends with the first maximum. *)
Lemma sort_up_rev_last (ks : list (PyFloat.float * pyval)) :
  ks <> [] -> keys_ok ks ->
  exists pre b post l1,
    ks = (pre ++ b :: post)%list /\
    sort_up (rev ks) = (l1 ++ [b])%list /\
    (forall y, In y pre -> PyFloat.ltb (fst y) (fst b) = true) /\
    (forall y, In y post -> PyFloat.ltb (fst b) (fst y) = false).
Proof.
  induction ks as [|x ks IH]; [congruence|]. intros _ Hok.
  simpl rev. rewrite sort_up_snoc.
  destruct ks as [|x' ks'].
  - exists [], x, [], []. simpl. repeat split; intros ? [].
  - destruct IH as (pre & b & post & l1 & Hks & Hsort & Hpre & Hpost);
      [discriminate | intros y Hy; apply Hok; now right |].
    rewrite Hsort.
    assert (Hx : PyFloat.is_nan (fst x) = false) by (apply Hok; now left).
    assert (Hin : forall y, In y (x' :: ks') -> PyFloat.is_nan (fst y) = false)
      by (intros y Hy; apply Hok; now right).
    assert (Hb : PyFloat.is_nan (fst b) = false)
      by (apply Hin; rewrite Hks; apply in_or_app; right; now left).
    destruct (PyFloat.ltb (fst x) (fst b)) eqn:Hxb.
    + destruct (insert_last_below x l1 b Hxb) as [l2 E].
      exists (x :: pre), b, post, l2. rewrite Hks, E.
      repeat split; auto. intros y [<- | Hy]; auto.
    + assert (Hall : forall y, In y (x' :: ks') ->
                               PyFloat.ltb (fst x) (fst y) = false).
      { intros y Hy.
        destruct (PyFloat.ltb (fst x) (fst y)) eqn:Hxy; [|reflexivity].
        destruct (ltb_cotrans _ _ (fst b) Hx (Hin y Hy) Hb Hxy) as [C | C];
          [congruence|].
        rewrite Hks in Hy. apply in_app_or in Hy.
        destruct Hy as [Hy | [<- | Hy]].
        - assert (Hy' : In y (x' :: ks'))
            by (rewrite Hks; apply in_or_app; now left).
          rewrite (ltb_asym _ _ (Hin y Hy') Hb (Hpre y Hy)) in C.
          discriminate.
        - rewrite ltb_irrefl in C. discriminate.
        - rewrite (Hpost y Hy) in C. discriminate. }
      exists [], x, (x' :: ks'), (l1 ++ [b])%list.
      split; [reflexivity|]. split; [|split; [intros ? []|exact Hall]].
      apply insert_last_above. intros y Hy. apply Hall.
      rewrite <- Hsort in Hy. apply (proj1 (sort_up_In _ _)) in Hy.
      apply (proj2 (in_rev _ _)) in Hy. exact Hy.
Qed.

Section Keyed.
Variable kf : pyval -> result PyFloat.float.

Lemma keyed_total (l : list pyval) :
  (forall x, In x l -> exists k, kf x = Ok k) ->
  exists ks, keyed kf l = Ok ks /\ map snd ks = l /\
             (forall p, In p ks -> kf (snd p) = Ok (fst p)).
Proof.
  induction l as [|x l IH]; intros H; simpl.
  - exists []. repeat split. intros ? [].
  - destruct (H x) as [k Hk]; [now left|].
    destruct IH as (ks & E & Hm & Hp); [intros; apply H; now right|].
    rewrite Hk, E. simpl. exists ((k, x) :: ks). simpl. rewrite Hm.
    repeat split. intros p [<- | Hin]; auto.
Qed.

(** The first key that raises ends the sort. *)
Lemma keyed_fails (l : list pyval) x e :
  In x l -> kf x = Err e -> exists e', keyed kf l = Err e'.
Proof.
  induction l as [|y l IH]; intros Hin He; [destruct Hin|].
  destruct Hin as [-> | Hin]; simpl.
  - rewrite He. now exists e.
  - destruct (kf y) as [k|e0]; simpl; [|now exists e0].
    destruct (IH Hin He) as [e' ->]. now exists e'.
Qed.

Lemma sorted_reverse_head (l : list pyval) :
  l <> [] ->
  (forall x, In x l -> exists k, kf x = Ok k /\ PyFloat.is_nan k = false) ->
  exists pre best post kb rest,
    l = (pre ++ best :: post)%list /\
    sorted_reverse kf (PList l) = Ok (best :: rest) /\
    kf best = Ok kb /\
    (forall x, In x pre -> exists k, kf x = Ok k /\ PyFloat.ltb k kb = true) /\
    (forall x, In x post -> exists k, kf x = Ok k /\ PyFloat.ltb kb k = false).
Proof.
  intros Hne Hk.
  destruct (keyed_total l) as (ks & E & Hm & Hp).
  { intros x Hx. destruct (Hk x Hx) as (k & ? & _). now exists k. }
  assert (Hok : keys_ok ks).
  { intros p Hin. destruct (Hk (snd p)) as (k & Hk1 & Hk2).
    - rewrite <- Hm. now apply in_map.
    - rewrite (Hp p Hin) in Hk1. inversion Hk1; subst. exact Hk2. }
  destruct (sort_up_rev_last ks)
    as (pre & b & post & l1 & Hks & Hsort & Hpre & Hpost); auto.
  { intros ->. simpl in Hm. congruence. }
  exists (map snd pre), (snd b), (map snd post), (fst b), (map snd (rev l1)).
  assert (Hb : In b ks) by (rewrite Hks; apply in_or_app; right; now left).
  repeat split.
  - rewrite <- Hm, Hks, map_app. reflexivity.
  - unfold sorted_reverse. simpl. rewrite E. simpl.
    rewrite Hsort, rev_app_distr. reflexivity.
  - now apply Hp.
  - intros x Hx. apply in_map_iff in Hx. destruct Hx as (p & <- & Hin).
    exists (fst p). split; [|now apply Hpre].
    apply Hp. rewrite Hks. apply in_or_app. now left.
  - intros x Hx. apply in_map_iff in Hx. destruct Hx as (p & <- & Hin).
    exists (fst p). split; [|now apply Hpost].
    apply Hp. rewrite Hks. apply in_or_app. right. now right.
Qed.

(** With every key computed the sort returns, and its head is one of the
    candidates. *)
Lemma sorted_reverse_total (l : list pyval) :
  l <> [] ->
  (forall x, In x l -> exists k, kf x = Ok k) ->
  exists best rest,
    sorted_reverse kf (PList l) = Ok (best :: rest) /\ In best l.
Proof.
  intros Hne Hk.
  destruct (keyed_total l Hk) as (ks & E & Hm & _).
  unfold sorted_reverse. cbn [py_iter rbind]. rewrite E. cbn [rbind].
  destruct (rev (sort_up (rev ks))) as [|b rest] eqn:Er.
  - exfalso. destruct ks as [|p ks]; [simpl in Hm; congruence|].
    assert (Hin : In p (rev (sort_up (rev (p :: ks))))).
    { apply (proj1 (in_rev _ _)). apply (proj2 (sort_up_In _ _)).
      apply (proj1 (in_rev _ _)). now left. }
    rewrite Er in Hin. destruct Hin.
  - exists (snd b), (map snd rest). split; [reflexivity|].
    rewrite <- Hm. apply in_map.
    apply (proj2 (in_rev _ _)). apply (proj1 (sort_up_In _ _)).
    apply (proj2 (in_rev _ _)). rewrite Er. now left.
Qed.

End Keyed.

(** The key of the sort is the net value of the candidate. *)
Lemma valor_liquido_key_net_value (x : pyval) (k : PyFloat.float) :
  net_value x = Some k -> valor_liquido_key x = Ok k.
Proof.
  unfold net_value, valor_liquido_key, py_get, rbind.
  destruct x as [| | | | |l|d]; try discriminate.
  destruct (lookup "valor_liquido" d) as [[| | z | f | s | |]|];
    try discriminate; cbn [py_float].
  - destruct (PyFloat.is_inf (PyFloat.round_Z z)); congruence.
  - congruence.
  - destruct (PyFloat.of_string s); congruence.
Qed.



(** ** Running the handlers

    A handler run against an arbitrary lender is followed call by call:
    each reply and each test of the handler splits the run, and every
    branch ends with a concrete list of exchanges and an outcome. *)

Lemma append_inj_l (b x y : string) : (b ++ x = b ++ y)%string -> x = y.
Proof.
  induction b as [|c b IH]; simpl; intros H; [exact H|].
  inversion H; auto.
Qed.

Ltac exec_in H :=
  cbv beta iota zeta
      delta [run formalizar consulta_ofertas get_token bind send ret raise py]
    in H.

Ltac step_in H :=
  match type of H with
  | context [match ?x with _ => _ end] =>
      lazymatch x with
      | context [match _ with _ => _ end] => fail
      | _ => destruct x eqn:?
      end
  end; exec_in H.

Ltac exec_all H := exec_in H; repeat step_in H.

Ltac url_absurd :=
  match goal with
  | H : (?b ++ ?x)%string = (?b ++ ?y)%string |- _ =>
      apply append_inj_l in H; discriminate H
  end.

Ltac show_url H := cbn [fst url call token_request consulta_request] in H.

(** Which exchange of a concrete trace a given one is. *)
Ltac pick_exchange Hin Hurl :=
  cbn [In app] in Hin;
  repeat (destruct Hin as [Hin | Hin];
          [ first [ discriminate Hin
                  | injection Hin as ? ?; subst; show_url Hurl;
                    try url_absurd ] | ]);
  try contradiction.

(** Every exchange of a concrete trace in turn. *)
Ltac each_exchange Hx :=
  cbn [In app] in Hx;
  repeat (destruct Hx as [Hx | Hx]; [subst | ]); try contradiction.

Ltac forget_replies L :=
  repeat match goal with
         | H : L _ _ = _ |- _ => clear H
         end.

Ltac tidy :=
  repeat match goal with
         | H : Err _ = Err _ |- _ => inversion H; subst; clear H
         | H : Ok _ = Ok _ |- _ => inversion H; subst; clear H
         | H : Some _ = Some _ |- _ => inversion H; subst; clear H
         | H : Ok _ = Err _ |- _ => discriminate H
         | H : Err _ = Ok _ |- _ => discriminate H
         | H : true = false |- _ => discriminate H
         | H : false = true |- _ => discriminate H
         | H : negb _ = true |- _ => apply negb_true_iff in H
         | H : negb _ = false |- _ => apply negb_false_iff in H
         end.

(** ** Reading a reply *)

Lemma prefix_append (p s : string) :
  String.prefix p s = true <-> exists rest, s = (p ++ rest)%string.
Proof.
  revert s. induction p as [|a p IH]; intros s.
  - split; [intros _; now exists s | intros _; destruct s; reflexivity].
  - destruct s as [|b s]; simpl.
    + split; [discriminate | intros [rest H]; discriminate H].
    + destruct (ascii_dec a b) as [->|Hab].
      * rewrite IH. split; intros [rest H]; exists rest.
        -- now rewrite H.
        -- now injection H.
      * split; [discriminate|]. intros [rest H]. injection H as H1 _.
        now elim Hab.
Qed.

(** The test of lines 24 and 104 holds exactly of the responses whose
    content type begins with text/html. *)
Lemma is_html_content (r : response) : is_html r = true <-> html_content r.
Proof.
  unfold is_html, html_content, header_content_type.
  rewrite prefix_append.
  destruct (content_type r) as [ct|].
  - split; intros [rest H]; exists rest; congruence.
  - split; intros [rest H]; discriminate H.
Qed.

Lemma not_html_content (r : response) :
  is_html r = false <-> ~ html_content r.
Proof.
  rewrite <- is_html_content. destruct (is_html r); split; congruence.
Qed.

(** A value is falsy exactly when it counts as absent. *)
Lemma truthy_blank (v : pyval) : truthy v = negb (blank v).
Proof.
  destruct v as [| b | z | f | s | l | d]; simpl;
    try rewrite negb_involutive; try reflexivity.
  - destruct f; reflexivity.
  - destruct l; reflexivity.
  - destruct d; reflexivity.
Qed.

Lemma py_or_first_present (a b : pyval) : py_or a b = first_present a b.
Proof.
  unfold py_or, first_present. rewrite truthy_blank.
  destruct (blank a); reflexivity.
Qed.

(** ** [get_token] *)

(** The three tests of [get_token] in their order, and the token. *)
Lemma get_token_cases cfg L rq r out :
  run (get_token cfg) L = ([(rq, Reply r)], out) ->
  (is_html r = true -> out = Raise (HTTPException 502 HtmlWafToken)) /\
  (is_html r = false -> status_code r <> 200 ->
     out = Raise (HTTPException 502 (TokenError (text r)))) /\
  (is_html r = false -> status_code r = 200 ->
   forall d, json_body r = Some (PDict d) ->
     match lookup "token" d with
     | Some v =>
         if truthy v then out = Return v
         else out = Raise (HTTPException 502 (TokenVazio (PDict d)))
     | None => out = Raise (HTTPException 502 (TokenVazio (PDict d)))
     end).
Proof.
  intros Hrun.
  exec_all Hrun; cbn [app] in Hrun; inversion Hrun; subst; clear Hrun; tidy;
  repeat match goal with
         | H : (_ =? _) = true |- _ => apply Z.eqb_eq in H
         | H : (_ =? _) = false |- _ => apply Z.eqb_neq in H
         end;
  (split; [|split]);
  try (intros; first [congruence | reflexivity]);
  intros _ _ d Hj; unfold json, py_get in *; rewrite Hj in *; tidy;
  destruct (lookup "token" d) as [v|]; cbn [truthy] in *;
  try match goal with H : truthy _ = _ |- _ => rewrite H end;
  try discriminate; auto.
Qed.

(** C6, as the code has it.  [get_token] fails as UpstreamBlocked when
    the content type of the response begins with text/html; otherwise as
    UpstreamUnavailable when the status is not 200; otherwise, when the
    body is a JSON object, as UpstreamProtocolError when the object holds
    no token or one that counts as absent, and else it returns the
    token. *)
Theorem get_token_classification cfg L rq r out :
  run (get_token cfg) L = ([(rq, Reply r)], out) ->
  (html_content r ->
     out = Raise (HTTPException 502 HtmlWafToken) /\
     failure out = Some UpstreamBlocked) /\
  (~ html_content r -> status_code r <> 200 ->
     out = Raise (HTTPException 502 (TokenError (text r))) /\
     failure out = Some UpstreamUnavailable) /\
  (~ html_content r -> status_code r = 200 ->
   forall d, json_body r = Some (PDict d) ->
     (blank (value_at d "token") = true ->
        out = Raise (HTTPException 502 (TokenVazio (PDict d))) /\
        failure out = Some UpstreamProtocolError) /\
     (blank (value_at d "token") = false ->
        out = Return (value_at d "token") /\ failure out = None)).
Proof.
  intros Hrun.
  destruct (get_token_cases cfg L rq r out Hrun) as (H1 & H2 & H3).
  split; [|split].
  - intros Hc. apply is_html_content in Hc.
    rewrite (H1 Hc). split; reflexivity.
  - intros Hc Hs. apply not_html_content in Hc.
    rewrite (H2 Hc Hs). split; reflexivity.
  - intros Hc Hs d Hj. apply not_html_content in Hc.
    specialize (H3 Hc Hs d Hj). unfold value_at.
    destruct (lookup "token" d) as [v|].
    + rewrite truthy_blank in H3.
      destruct (blank v); cbn [negb] in H3; split; intros Hb;
        try discriminate Hb; rewrite H3; split; reflexivity.
    + split; intros Hb; try discriminate Hb; rewrite H3; split; reflexivity.
Qed.

(** The page of a defence layer, an error status, an empty token, a
    missing token, and a token. *)
Lemma get_token_classification_witness :
  (snd (run (get_token sample_config) lender_token_html)
   = Raise (HTTPException 502 HtmlWafToken) /\
   failure (snd (run (get_token sample_config) lender_token_html))
   = Some UpstreamBlocked) /\
  (snd (run (get_token sample_config) lender_token_down)
   = Raise (HTTPException 502 (TokenError "erro")) /\
   failure (snd (run (get_token sample_config) lender_token_down))
   = Some UpstreamUnavailable) /\
  (snd (run (get_token sample_config) lender_token_empty)
   = Raise (HTTPException 502 (TokenVazio (PDict [("token", PStr "")]))) /\
   failure (snd (run (get_token sample_config) lender_token_empty))
   = Some UpstreamProtocolError) /\
  (snd (run (get_token sample_config) lender_token_missing)
   = Raise (HTTPException 502
              (TokenVazio (PDict [("erro", PStr "login invalido")]))) /\
   failure (snd (run (get_token sample_config) lender_token_missing))
   = Some UpstreamProtocolError) /\
  (snd (run (get_token sample_config) (scripted sample_config [token_ok]))
   = Return (PStr "abc") /\
   failure (snd (run (get_token sample_config)
                   (scripted sample_config [token_ok])))
   = None).
Proof.
  assert (Hjson : forall j, ~ html_content (json_response j)).
  { intros j [rest H]. simpl in H. discriminate H. }
  split; [|split; [|split; [|split]]].
  - refine (proj1 (get_token_classification sample_config lender_token_html
                     (token_request sample_config) html_page _ _) _).
    + vm_compute. reflexivity.
    + exists "; charset=UTF-8". reflexivity.
  - refine (proj1 (proj2 (get_token_classification sample_config
                            lender_token_down
                            (token_request sample_config) server_error _ _))
              _ _).
    + vm_compute. reflexivity.
    + intros [rest H]. simpl in H. discriminate H.
    + simpl. lia.
  - refine (proj1 (proj2 (proj2 (get_token_classification sample_config
                                   lender_token_empty
                                   (token_request sample_config)
                                   (json_response (PDict [("token", PStr "")]))
                                   _ _))
                     (Hjson _) eq_refl _ eq_refl) eq_refl).
    vm_compute. reflexivity.
  - refine (proj1 (proj2 (proj2 (get_token_classification sample_config
                                   lender_token_missing
                                   (token_request sample_config)
                                   (json_response
                                      (PDict [("erro", PStr "login invalido")]))
                                   _ _))
                     (Hjson _) eq_refl _ eq_refl) eq_refl).
    vm_compute. reflexivity.
  - refine (proj2 (proj2 (proj2 (get_token_classification sample_config
                                   (scripted sample_config [token_ok])
                                   (token_request sample_config)
                                   (json_response (PDict [("token", PStr "abc")]))
                                   _ _))
                     (Hjson _) eq_refl _ eq_refl) eq_refl).
    vm_compute. reflexivity.
Defined.

(** C6 as stated fails: a 200 response whose body parses, to a JSON array
    or to a JSON text, holds no usable token, and [get_token] ends with
    an exception that nothing catches instead of UpstreamProtocolError. *)
Lemma get_token_body_not_object :
  json (json_response (PList [])) = Ok (PList []) /\
  snd (run (get_token sample_config) lender_token_array)
  = Raise (Uncaught AttributeError) /\
  failure (snd (run (get_token sample_config) lender_token_array))
  = Some Unclassified /\
  failure (snd (run (get_token sample_config) lender_token_array))
  <> Some UpstreamProtocolError /\
  snd (run (get_token sample_config)
         (scripted sample_config [("/gera-token", json_reply (PStr "abc"))]))
  = Raise (Uncaught AttributeError).
Proof.
  repeat split; try (vm_compute; reflexivity).
  vm_compute. discriminate.
Qed.

(** ** [consulta_ofertas] *)

Lemma normaliza_dict (e : list (string * pyval)) :
  normaliza (PDict e) =
  Ok (PDict [ ("oferta", py_or (or_default (lookup "oferta" e) PNone)
                               (or_default (lookup "descricao" e) PNone));
              ("resposta", py_or (or_default (lookup "resposta" e) PNone)
                                 (or_default (lookup "situacao" e) PNone)) ]).
Proof.
  unfold normaliza, rbind, py_get, py_or, or_default.
  destruct (truthy match lookup "oferta" e with Some v => v | None => PNone end),
           (truthy match lookup "resposta" e with Some v => v | None => PNone end);
    reflexivity.
Qed.

Lemma normaliza_todas_dicts (l : list pyval) :
  (forall x, In x l -> exists e, x = PDict e) ->
  exists os, normaliza_todas l = Ok os /\
             Forall2 (fun x o => normaliza x = Ok o) l os.
Proof.
  induction l as [|x l IH]; intros H.
  - exists []. split; [reflexivity | constructor].
  - destruct (H x (or_introl eq_refl)) as [e ->].
    destruct IH as (os & E & F); [intros y Hy; apply H; now right|].
    cbn [normaliza_todas]. rewrite normaliza_dict, E. cbn [rbind].
    eexists. split; [reflexivity|].
    constructor; [apply normaliza_dict | exact F].
Qed.

Lemma ofertas_raw_of_dict (d : list (string * pyval)) :
  ofertas_raw_of (PDict d) =
  Ok (py_or (or_default (lookup "dados" d) PNone)
            (py_or (or_default (lookup "ofertas" d) PNone) (PList []))).
Proof.
  unfold ofertas_raw_of, rbind, py_get, py_or, or_default.
  destruct (truthy match lookup "dados" d with Some v => v | None => PNone end);
    [reflexivity|].
  destruct (truthy match lookup "ofertas" d with Some v => v | None => PNone end);
    reflexivity.
Qed.

Lemma ofertas_raw_of_offers (d : list (string * pyval)) :
  ofertas_raw_of (PDict d) = Ok (offers_value d).
Proof.
  rewrite ofertas_raw_of_dict. unfold offers_value.
  now rewrite !py_or_first_present.
Qed.

Lemma normaliza_offer (e : list (string * pyval)) :
  normaliza (PDict e) = Ok (offer_of e).
Proof.
  rewrite normaliza_dict. unfold offer_of.
  now rewrite !py_or_first_present.
Qed.

Lemma normaliza_todas_offers (es : list (list (string * pyval))) :
  normaliza_todas (map PDict es) = Ok (map offer_of es).
Proof.
  induction es as [|e es IH]; [reflexivity|].
  cbn [map normaliza_todas]. rewrite normaliza_offer, IH. reflexivity.
Qed.

Lemma re_sub_nondigit_filter (s : string) : re_sub_nondigit s = digits_only s.
Proof.
  unfold digits_only.
  induction s as [|c s IH]; simpl; [reflexivity|].
  destruct (PyFloat.is_digit c); simpl; now rewrite IH.
Qed.

Lemma consulta_result_answer (cpf : string) (os : list pyval) :
  consulta_result (digits (Some cpf)) os = offers_answer cpf os.
Proof.
  unfold consulta_result, offers_answer, digits.
  now rewrite re_sub_nondigit_filter.
Qed.

(** What the query does with a lookup reply that is not HTML and whose
    body is JSON: lines 110-116. *)
Lemma consulta_ofertas_reads cfg body L tr out rq r j :
  run (consulta_ofertas cfg body) L = (tr, out) ->
  In (rq, Reply r) tr ->
  url rq = (FACTA_BASE cfg ++ "/consignado-trabalhador/consulta-ofertas")%string ->
  is_html r = false ->
  json_body r = Some j ->
  out = match rbind (ofertas_raw_of j) ofertas_of with
        | Ok os =>
            Return (consulta_result (digits (Some (ConsultaIn.cpf body))) os)
        | Err e => Raise (Uncaught e)
        end.
Proof.
  intros Hrun Hin Hurl Hh Hj.
  exec_all Hrun; inversion Hrun; subst tr out; clear Hrun;
    pick_exchange Hin Hurl; forget_replies L;
    try congruence;
    unfold json in *; rewrite Hj in *; tidy;
    unfold rbind;
    repeat match goal with
           | H : ofertas_raw_of _ = _ |- _ => rewrite H; clear H
           | H : ofertas_of _ = _ |- _ => rewrite H; clear H
           end;
    reflexivity.
Qed.

(** C7, as the code has it.  When the offer lookup answers with a JSON
    object, the value read is what the object holds under [dados], else
    under [ofertas], else the empty list (a value that counts as absent
    is passed over).  If that value is not a list, and in particular if
    neither field is present, the query succeeds with no offer; if it is
    a list of objects the query succeeds with one offer per entry, its
    description read under [oferta], else [descricao], and its status
    under [resposta], else [situacao].  An entry with only
    descricao/situacao gives the offer of an entry with only
    oferta/resposta holding the same values when these do not count as
    absent, and an entry with none of the four gives an offer with both
    parts absent. *)
Theorem consulta_ofertas_offers cfg body L tr out rq r d :
  run (consulta_ofertas cfg body) L = (tr, out) ->
  In (rq, Reply r) tr ->
  url rq = (FACTA_BASE cfg ++ "/consignado-trabalhador/consulta-ofertas")%string ->
  ~ html_content r ->
  json_body r = Some (PDict d) ->
  ((forall l, offers_value d <> PList l) ->
     out = Return (offers_answer (ConsultaIn.cpf body) [])) /\
  (lookup "dados" d = None -> lookup "ofertas" d = None ->
     out = Return (offers_answer (ConsultaIn.cpf body) [])) /\
  (forall es, offers_value d = PList (map PDict es) ->
     out = Return (offers_answer (ConsultaIn.cpf body) (map offer_of es))) /\
  (forall e a b,
     lookup "oferta" e = None -> lookup "resposta" e = None ->
     lookup "descricao" e = Some a -> lookup "situacao" e = Some b ->
     normaliza (PDict e) = Ok (PDict [("oferta", a); ("resposta", b)])) /\
  (forall e a b,
     lookup "oferta" e = Some a -> lookup "resposta" e = Some b ->
     lookup "descricao" e = None -> lookup "situacao" e = None ->
     blank a = false -> blank b = false ->
     normaliza (PDict e) = Ok (PDict [("oferta", a); ("resposta", b)])) /\
  (forall e,
     lookup "oferta" e = None -> lookup "resposta" e = None ->
     lookup "descricao" e = None -> lookup "situacao" e = None ->
     normaliza (PDict e) = Ok (PDict [("oferta", PNone); ("resposta", PNone)])).
Proof.
  intros Hrun Hin Hurl Hh Hj. apply not_html_content in Hh.
  pose proof (consulta_ofertas_reads cfg body L tr out rq r _
                Hrun Hin Hurl Hh Hj) as Hout.
  rewrite ofertas_raw_of_offers in Hout. cbn [rbind] in Hout.
  split; [|split; [|split; [|split; [|split]]]].
  - intros Hl. rewrite Hout.
    destruct (offers_value d) as [| | | | | l |]; cbn [ofertas_of];
      try (now rewrite consulta_result_answer).
    now elim (Hl l).
  - intros Hd Ho. rewrite Hout.
    unfold offers_value, value_at. rewrite Hd, Ho.
    unfold first_present. cbn [blank ofertas_of normaliza_todas].
    now rewrite consulta_result_answer.
  - intros es Hl. rewrite Hout, Hl. cbn [ofertas_of].
    rewrite normaliza_todas_offers. now rewrite consulta_result_answer.
  - intros e a b Ho Hr Hd Hs. rewrite normaliza_offer.
    unfold offer_of, value_at. rewrite Ho, Hr, Hd, Hs. reflexivity.
  - intros e a b Ho Hr Hd Hs Ha Hb. rewrite normaliza_offer.
    unfold offer_of, value_at, first_present.
    rewrite Ho, Hr, Hd, Hs, Ha, Hb. reflexivity.
  - intros e Ho Hr Hd Hs. rewrite normaliza_offer.
    unfold offer_of, value_at. rewrite Ho, Hr, Hd, Hs. reflexivity.
Qed.

(** Scenario A of the specification gives its one offer; a reply that
    names neither field gives none; and an entry gives the same offer in
    either spelling. *)
Lemma consulta_ofertas_offers_witness :
  snd (run (consulta_ofertas sample_config consulta_body) lender_one_offer)
  = Return (PDict [ ("status", PStr "ok");
                    ("cpf", PStr "12345678909");
                    ("total_ofertas", PInt 1);
                    ("ofertas",
                     PList [PDict [ ("oferta", PStr "Refin");
                                    ("resposta", PStr "Aprovado") ]]) ]) /\
  snd (run (consulta_ofertas sample_config consulta_body) lender_no_offer)
  = Return (PDict [ ("status", PStr "ok");
                    ("cpf", PStr "12345678909");
                    ("total_ofertas", PInt 0);
                    ("ofertas", PList []) ]) /\
  snd (run (consulta_ofertas sample_config consulta_body) lender_two_spellings)
  = Return (PDict [ ("status", PStr "ok");
                    ("cpf", PStr "12345678909");
                    ("total_ofertas", PInt 3);
                    ("ofertas",
                     PList [PDict [ ("oferta", PStr "Refin");
                                    ("resposta", PStr "Aprovado") ];
                            PDict [ ("oferta", PStr "Refin");
                                    ("resposta", PStr "Aprovado") ];
                            PDict [ ("oferta", PNone);
                                    ("resposta", PNone) ]]) ]).
Proof.
  assert (Hjson : forall j, ~ html_content (json_response j)).
  { intros j [rest H]. simpl in H. discriminate H. }
  split; [|split].
  - exact (proj1 (proj2 (proj2
      (consulta_ofertas_offers sample_config consulta_body lender_one_offer
         (fst (run (consulta_ofertas sample_config consulta_body)
                 lender_one_offer))
         (snd (run (consulta_ofertas sample_config consulta_body)
                 lender_one_offer))
         (consulta_request sample_config (PStr "abc") "12345678909")
         (json_response one_offer_body)
         [("dados",
           PList [PDict [ ("descricao", PStr "Refin");
                          ("situacao", PStr "Aprovado") ]])]
         (surjective_pairing _)
         (or_intror (or_introl eq_refl))
         eq_refl (Hjson _) eq_refl)))
      [[ ("descricao", PStr "Refin"); ("situacao", PStr "Aprovado") ]]
      eq_refl).
  - exact (proj1 (proj2
      (consulta_ofertas_offers sample_config consulta_body lender_no_offer
         (fst (run (consulta_ofertas sample_config consulta_body)
                 lender_no_offer))
         (snd (run (consulta_ofertas sample_config consulta_body)
                 lender_no_offer))
         (consulta_request sample_config (PStr "abc") "12345678909")
         (json_response (PDict [("mensagem", PStr "ok")]))
         [("mensagem", PStr "ok")]
         (surjective_pairing _)
         (or_intror (or_introl eq_refl))
         eq_refl (Hjson _) eq_refl))
      eq_refl eq_refl).
  - exact (proj1 (proj2 (proj2
      (consulta_ofertas_offers sample_config consulta_body lender_two_spellings
         (fst (run (consulta_ofertas sample_config consulta_body)
                 lender_two_spellings))
         (snd (run (consulta_ofertas sample_config consulta_body)
                 lender_two_spellings))
         (consulta_request sample_config (PStr "abc") "12345678909")
         (json_response
            (PDict [("dados", PList []);
                    ("ofertas",
                     PList [PDict [ ("oferta", PStr "Refin");
                                    ("resposta", PStr "Aprovado") ];
                            PDict [ ("descricao", PStr "Refin");
                                    ("situacao", PStr "Aprovado") ];
                            PDict [ ("codigo", PInt 3) ]])]))
         [("dados", PList []);
          ("ofertas",
           PList [PDict [ ("oferta", PStr "Refin");
                          ("resposta", PStr "Aprovado") ];
                  PDict [ ("descricao", PStr "Refin");
                          ("situacao", PStr "Aprovado") ];
                  PDict [ ("codigo", PInt 3) ]])]
         (surjective_pairing _)
         (or_intror (or_introl eq_refl))
         eq_refl (Hjson _) eq_refl)))
      [ [ ("oferta", PStr "Refin"); ("resposta", PStr "Aprovado") ];
        [ ("descricao", PStr "Refin"); ("situacao", PStr "Aprovado") ];
        [ ("codigo", PInt 3) ] ]
      eq_refl).
Defined.

(** C7 as stated fails: a body that is a JSON array, or an offer list
    that holds something other than objects, ends the query with an
    exception that nothing catches; and two entries that carry the same
    empty description under the two spellings give different offers. *)
Lemma consulta_ofertas_not_total :
  snd (run (consulta_ofertas sample_config consulta_body) lender_offers_array)
  = Raise (Uncaught AttributeError) /\
  snd (run (consulta_ofertas sample_config consulta_body)
         lender_offers_of_strings)
  = Raise (Uncaught AttributeError) /\
  normaliza (PDict [("descricao", PStr ""); ("situacao", PStr "")])
  = Ok (PDict [("oferta", PStr ""); ("resposta", PStr "")]) /\
  normaliza (PDict [("oferta", PStr ""); ("resposta", PStr "")])
  = Ok (PDict [("oferta", PNone); ("resposta", PNone)]).
Proof. repeat split; vm_compute; reflexivity. Qed.

(** ** The canonical id number *)

Lemma simulador_form_cpf cfg cpf body best form :
  simulador_form cfg cpf body best = Ok form ->
  field_get "cpf" form = Some (Val (PStr cpf)).
Proof.
  unfold simulador_form, rbind. intros H.
  repeat match type of H with
         | match ?x with _ => _ end = _ => destruct x; try discriminate H
         end.
  inversion H. reflexivity.
Qed.

(** C9. The id number is reduced to its digit characters, in their
    original order; that form is what the offer query sends to the lender
    and returns to the caller, and what every call of the formalization
    workflow that carries an id number sends. *)
Theorem cpf_canonical_form :
  (forall s, digits (Some s) = digits_only s) /\
  (forall cfg body L tr out,
      run (consulta_ofertas cfg body) L = (tr, out) ->
      (forall x f, In x tr -> field_get "cpf" (fields (fst x)) = Some f ->
                   f = Val (PStr (digits_only (ConsultaIn.cpf body)))) /\
      (forall x, In x tr ->
         url (fst x) =
           (FACTA_BASE cfg ++ "/consignado-trabalhador/consulta-ofertas")%string ->
         field_get "cpf" (fields (fst x)) =
           Some (Val (PStr (digits_only (ConsultaIn.cpf body))))) /\
      (forall v, out = Return v ->
         py_get v "cpf" PNone = Ok (PStr (digits_only (ConsultaIn.cpf body))))) /\
  (forall cfg body L tr out,
      run (formalizar cfg body) L = (tr, out) ->
      (forall x f, In x tr -> field_get "cpf" (fields (fst x)) = Some f ->
                   f = Val (PStr (digits_only (FormalizarIn.cpf body)))) /\
      (forall x path, In x tr ->
         url (fst x) = (FACTA_BASE cfg ++ path)%string ->
         In path [ "/proposta/operacoes-disponiveis";
                   "/proposta/etapa1-simulador";
                   "/proposta/etapa2-dados-pessoais" ] ->
         field_get "cpf" (fields (fst x)) =
           Some (Val (PStr (digits_only (FormalizarIn.cpf body)))))).
Proof.
  assert (Hd : forall s, digits (Some s) = digits_only s)
    by (intros s; apply re_sub_nondigit_filter).
  split; [exact Hd|]. split.
  - intros cfg body L tr out Hrun.
    exec_all Hrun; inversion Hrun; subst tr out; clear Hrun;
      try rewrite Hd in *;
      (split; [|split]);
      try (intros xx ff Hx Hf; each_exchange Hx; cbn in Hf; congruence);
      try (intros xx Hx Hu; each_exchange Hx; show_url Hu; try url_absurd;
           reflexivity);
      try (intros vv Hv; inversion Hv; reflexivity).
  - intros cfg body L tr out Hrun.
    exec_all Hrun; inversion Hrun; subst tr out; clear Hrun;
      try rewrite Hd in *;
      repeat match goal with
             | H : simulador_form _ _ _ _ = Ok _ |- _ =>
                 apply simulador_form_cpf in H
             end;
      (split;
       [ intros xx ff Hx Hf; each_exchange Hx; cbn in Hf; congruence
       | intros xx path Hx Hu Hp; each_exchange Hx; show_url Hu;
         cbn [fst fields call];
         try assumption; try reflexivity;
         simpl in Hp;
         repeat (destruct Hp as [Hp | Hp]; [subst path; try url_absurd|]);
         try contradiction ]).
Qed.

Lemma cpf_canonical_form_witness :
  digits (Some "123.456.789-09") = "12345678909" /\
  (forall x f,
      In x (fst (run (consulta_ofertas sample_config consulta_body)
                   lender_one_offer)) ->
      field_get "cpf" (fields (fst x)) = Some f ->
      f = Val (PStr (digits_only (ConsultaIn.cpf consulta_body)))) /\
  (forall x f,
      In x (fst (run (formalizar sample_config formalizar_body)
                   lender_all_steps)) ->
      field_get "cpf" (fields (fst x)) = Some f ->
      f = Val (PStr (digits_only (FormalizarIn.cpf formalizar_body)))).
Proof.
  destruct cpf_canonical_form as (H1 & H2 & H3).
  split; [exact (H1 "123.456.789-09")|]. split.
  - exact (proj1 (H2 sample_config consulta_body lender_one_offer _ _
                    (surjective_pairing _))).
  - exact (proj1 (H3 sample_config formalizar_body lender_all_steps _ _
                    (surjective_pairing _))).
Defined.

(** ** [formalizar] *)

(** C4. When the available-operations reply is an object whose table list
    is absent or empty, the operation fails as NoEligibleTable, and the
    token and available-operations calls are the only ones made. *)
Theorem formalizar_sem_tabela cfg body L tr out rq r1 d :
  run (formalizar cfg body) L = (tr, out) ->
  In (rq, Reply r1) tr ->
  url rq = (FACTA_BASE cfg ++ "/proposta/operacoes-disponiveis")%string ->
  json_body r1 = Some (PDict d) ->
  lookup "tabelas" d = None \/ lookup "tabelas" d = Some (PList []) ->
  out = Raise (HTTPException 400 SemTabela) /\
  failure out = Some NoEligibleTable /\
  exists rq0 rp0,
    tr = [(rq0, rp0); (rq, Reply r1)] /\
    url rq0 = (FACTA_BASE cfg ++ "/gera-token")%string.
Proof.
  intros Hrun Hin Hurl Hj Ht.
  assert (Hf : truthy (match lookup "tabelas" d with
                       | Some v => v | None => PList [] end) = false)
    by (destruct Ht as [-> | ->]; reflexivity).
  exec_all Hrun; inversion Hrun; subst tr out; clear Hrun;
  pick_exchange Hin Hurl; forget_replies L;
  unfold json, py_get in *; rewrite Hj in *; tidy;
  try congruence.
  repeat split. eexists _, _. split; reflexivity.
Qed.

Lemma formalizar_sem_tabela_witness :
  snd (run (formalizar sample_config formalizar_body) lender_no_table)
  = Raise (HTTPException 400 SemTabela).
Proof.
  refine (proj1
    (formalizar_sem_tabela sample_config formalizar_body lender_no_table
       (fst (run (formalizar sample_config formalizar_body) lender_no_table))
       _
       (call sample_config GET "/proposta/operacoes-disponiveis"
          (bearer_headers (PStr "abc"))
          (operacoes_params "12345678909" formalizar_body))
       (json_response (PDict [("tabelas", PList [])]))
       [("tabelas", PList [])] _ _ _ _ _)).
  - apply surjective_pairing.
  - vm_compute. right. left. reflexivity.
  - reflexivity.
  - reflexivity.
  - right. reflexivity.
Defined.

(** C3. When the reply of the register step is an object without
    [codigo_cliente], the operation fails as StepFailed("register") with
    that object, the register call is the last one made, and no request
    goes to the proposal endpoint. *)
Theorem formalizar_register_without_client_code cfg body L tr out rq r3 d :
  run (formalizar cfg body) L = (tr, out) ->
  In (rq, Reply r3) tr ->
  url rq = (FACTA_BASE cfg ++ "/proposta/etapa2-dados-pessoais")%string ->
  json_body r3 = Some (PDict d) ->
  lookup "codigo_cliente" d = None ->
  out = Raise (HTTPException 502 (FalhaEtapa2 (PDict d))) /\
  failure out = Some (StepFailed "register" (PDict d)) /\
  (exists before, tr = (before ++ [(rq, Reply r3)])%list) /\
  (forall x, In x tr ->
     url (fst x) <>
       (FACTA_BASE cfg ++ "/proposta/etapa3-proposta-cadastro")%string).
Proof.
  intros Hrun Hin Hurl Hj Hc.
  exec_all Hrun; inversion Hrun; subst tr out; clear Hrun;
  pick_exchange Hin Hurl; forget_replies L;
  unfold json, py_get in *; rewrite Hj in *; tidy;
  try rewrite Hc in *; simpl in *; try discriminate.
  split; [reflexivity|]. split; [reflexivity|]. split.
  - eexists [_; _; _]. reflexivity.
  - intros x Hx Hu. each_exchange Hx; show_url Hu; url_absurd.
Qed.

Lemma formalizar_register_without_client_code_witness :
  snd (run (formalizar sample_config formalizar_body) lender_register_refused)
  = Raise (HTTPException 502 (FalhaEtapa2 (PDict register_refused))).
Proof.
  refine (proj1
    (formalizar_register_without_client_code sample_config formalizar_body
       lender_register_refused
       (fst (run (formalizar sample_config formalizar_body)
               lender_register_refused))
       _
       (call sample_config POST "/proposta/etapa2-dados-pessoais"
          (bearer_headers (PStr "abc"))
          (dados_pessoais_form "12345678909" formalizar_body (PStr "sim-1")))
       (json_response (PDict register_refused))
       register_refused _ _ _ _ _)).
  - apply surjective_pairing.
  - vm_compute. do 3 right. left. reflexivity.
  - reflexivity.
  - reflexivity.
  - reflexivity.
Defined.

(** The form of the simulate step, by the keys of the selected table. *)
Lemma simulador_form_eq cfg cpf body d :
  simulador_form cfg cpf body (PDict d) =
  match lookup "codigoTabela" d with
  | None => Err (KeyError "codigoTabela")
  | Some c =>
      match lookup "prazo" d with
      | None => Err (KeyError "prazo")
      | Some p =>
          Ok [ ("produto", Val (PStr "D"));
               ("tipo_operacao", Val (PStr "13"));
               ("averbador", Val (PStr "10010"));
               ("convenio", Val (PStr "3"));
               ("cpf", Val (PStr cpf));
               ("data_nascimento",
                Val (PStr (FormalizarIn.data_nascimento body)));
               ("login_certificado", Val (PStr (LOGIN_CERT cfg)));
               ("codigo_tabela", StrOf c);
               ("prazo", StrOf p);
               ("valor_operacao",
                StrOf (or_default (lookup "contrato" d)
                         (or_default (lookup "valor_liquido" d) (PInt 0))));
               ("valor_parcela",
                StrOf (or_default (lookup "parcela" d) (PInt 0)));
               ("coeficiente",
                StrOf (or_default (lookup "coeficiente" d) PNone)) ]
      end
  end.
Proof.
  unfold simulador_form, rbind, py_getitem, py_get, or_default.
  destruct (lookup "codigoTabela" d); [|reflexivity].
  destruct (lookup "prazo" d); reflexivity.
Qed.

Lemma simulador_form_missing cfg cpf body d :
  lookup "codigoTabela" d = None \/ lookup "prazo" d = None ->
  simulador_form cfg cpf body (PDict d) = Err (KeyError "codigoTabela") \/
  simulador_form cfg cpf body (PDict d) = Err (KeyError "prazo").
Proof.
  rewrite simulador_form_eq. intros [H | H]; rewrite H; auto.
  destruct (lookup "codigoTabela" d); auto.
Qed.

(** C10. When the selected table has no [codigoTabela] or no [prazo], the
    operation ends with a [KeyError] that nothing catches (no kind of the
    specification) and the simulate call is not made.  When it has both,
    the simulate call is made; its contract value is [contrato], else
    [valor_liquido], else 0, its installment value [parcela], else 0, and
    its coefficient [coeficiente], else [None]. *)
Theorem formalizar_simulador_required_fields cfg body L tr out rq1 r1 d1 t d :
  run (formalizar cfg body) L = (tr, out) ->
  In (rq1, Reply r1) tr ->
  url rq1 = (FACTA_BASE cfg ++ "/proposta/operacoes-disponiveis")%string ->
  json_body r1 = Some (PDict d1) ->
  lookup "tabelas" d1 = Some t ->
  truthy t = true ->
  select_best t = Ok (PDict d) ->
  (lookup "codigoTabela" d = None \/ lookup "prazo" d = None ->
   (out = Raise (Uncaught (KeyError "codigoTabela")) \/
    out = Raise (Uncaught (KeyError "prazo"))) /\
   failure out = Some Unclassified /\
   (forall x, In x tr ->
      url (fst x) <> (FACTA_BASE cfg ++ "/proposta/etapa1-simulador")%string)) /\
  (forall c p,
     lookup "codigoTabela" d = Some c -> lookup "prazo" d = Some p ->
     exists rq2 rp2,
       In (rq2, rp2) tr /\
       url rq2 = (FACTA_BASE cfg ++ "/proposta/etapa1-simulador")%string /\
       field_get "codigo_tabela" (fields rq2) = Some (StrOf c) /\
       field_get "prazo" (fields rq2) = Some (StrOf p) /\
       field_get "valor_operacao" (fields rq2) =
         Some (StrOf (or_default (lookup "contrato" d)
                        (or_default (lookup "valor_liquido" d) (PInt 0)))) /\
       field_get "valor_parcela" (fields rq2) =
         Some (StrOf (or_default (lookup "parcela" d) (PInt 0))) /\
       field_get "coeficiente" (fields rq2) =
         Some (StrOf (or_default (lookup "coeficiente" d) PNone))).
Proof.
  intros Hrun Hin Hurl Hj Ht Htr Hsel.
  exec_all Hrun; inversion Hrun; subst tr out; clear Hrun;
  pick_exchange Hin Hurl; forget_replies L;
  unfold json in *; unfold py_get in *; rewrite Hj in *; tidy;
  rewrite Ht in *; try congruence; rewrite Hsel in *; tidy;
  match goal with
  | H : simulador_form _ _ _ _ = _ |- _ => rename H into Hform
  end;
  (split;
   [ intros Hm;
     destruct (simulador_form_missing cfg (digits (Some (FormalizarIn.cpf body)))
                 body d Hm) as [E | E];
     rewrite E in Hform; tidy;
     (split; [auto|]); (split; [reflexivity|]);
     intros xx Hx Hu; each_exchange Hx; show_url Hu; url_absurd
   | intros c p Hc Hp;
     rewrite simulador_form_eq, Hc, Hp in Hform; tidy;
     eexists _, _; (split; [cbn [In app]; do 2 right; left; reflexivity|]);
     repeat split ]).
Qed.

Lemma formalizar_simulador_required_fields_witness :
  failure (snd (run (formalizar sample_config formalizar_body) lender_no_prazo))
  = Some Unclassified.
Proof.
  refine (proj1 (proj2 (proj1
    (formalizar_simulador_required_fields sample_config formalizar_body
       lender_no_prazo
       (fst (run (formalizar sample_config formalizar_body) lender_no_prazo))
       _
       (call sample_config GET "/proposta/operacoes-disponiveis"
          (bearer_headers (PStr "abc"))
          (operacoes_params "12345678909" formalizar_body))
       (json_response (PDict [("tabelas", PList no_prazo_tables)]))
       [("tabelas", PList no_prazo_tables)]
       (PList no_prazo_tables)
       [("codigoTabela", PInt 5); ("valor_liquido", PInt 900)]
       _ _ _ _ _ _ _) _))).
  - apply surjective_pairing.
  - vm_compute. right. left. reflexivity.
  - reflexivity.
  - reflexivity.
  - reflexivity.
  - reflexivity.
  - vm_compute. reflexivity.
  - right. reflexivity.
Defined.

(** C8, as the code has it.  Whenever the send-link call gets a response,
    whatever its status, content type or body, the operation returns
    success with the proposal code and the formalization URL read from the
    reply of the proposal step; the call carries that code and the
    delivery marker, which is the text Whatsapp. *)
Theorem formalizar_envio_link_not_validated cfg body L tr out rq r5 :
  run (formalizar cfg body) L = (tr, out) ->
  In (rq, Reply r5) tr ->
  url rq = (FACTA_BASE cfg ++ "/proposta/envio-link")%string ->
  exists codigo url_form,
    out = Return (PDict [ ("status", PStr "ok");
                          ("mensagem", PStr "Proposta criada e link enviado.");
                          ("codigo", codigo);
                          ("url_formalizacao", url_form) ]) /\
    fields rq = [ ("codigo_af", Val codigo);
                  ("tipo_envio", Val (PStr "Whatsapp")) ] /\
    truthy codigo = true /\
    exists rq4 r4 d4,
      In (rq4, Reply r4) tr /\
      url rq4 = (FACTA_BASE cfg ++ "/proposta/etapa3-proposta-cadastro")%string /\
      json_body r4 = Some (PDict d4) /\
      lookup "codigo" d4 = Some codigo /\
      url_form = or_default (lookup "url_formalizacao" d4) PNone.
Proof.
  intros Hrun Hin Hurl.
  exec_all Hrun; inversion Hrun; subst tr out; clear Hrun;
  pick_exchange Hin Hurl; forget_replies L.
  unfold json, py_get in *.
  repeat match goal with
         | H : match ?x with _ => _ end = Ok _ |- _ =>
             destruct x eqn:?; try discriminate H
         end.
  tidy.
  match goal with
  | H : truthy (match lookup "codigo" ?d with _ => _ end) = true |- _ =>
      destruct (lookup "codigo" d) as [c|] eqn:Hc; [|discriminate H]
  end.
  exists c. eexists. split; [reflexivity|]. split; [reflexivity|].
  split; [assumption|].
  eexists _, _, _. split; [cbn [In app]; do 4 right; left; reflexivity|].
  split; [reflexivity|]. split; [eassumption|].
  split; [eassumption|reflexivity].
Qed.

Lemma formalizar_envio_link_not_validated_witness :
  exists codigo url_form,
    snd (run (formalizar sample_config formalizar_body) lender_all_steps)
    = Return (formalizar_result codigo url_form).
Proof.
  destruct
    (formalizar_envio_link_not_validated sample_config formalizar_body
       lender_all_steps
       (fst (run (formalizar sample_config formalizar_body) lender_all_steps))
       (snd (run (formalizar sample_config formalizar_body) lender_all_steps))
       (call sample_config POST "/proposta/envio-link"
          (bearer_headers (PStr "abc")) (envio_link_form (PStr "AF-9")))
       server_error)
    as (codigo & url_form & Hout & _).
  - apply surjective_pairing.
  - vm_compute. do 5 right. left. reflexivity.
  - reflexivity.
  - exists codigo, url_form. exact Hout.
Defined.

(** C8 as stated fails: when the send-link call gets no response (the
    client raises), the exception ends the operation, which does not
    return success; and the marker sent differs from the text WhatsApp. *)
Lemma formalizar_envio_link_no_reply :
  snd (run (formalizar sample_config formalizar_body) lender_link_unreachable)
  = Raise (Uncaught RequestError) /\
  (exists rq,
     In (rq, NoReply)
        (fst (run (formalizar sample_config formalizar_body)
                lender_link_unreachable)) /\
     url rq = (FACTA_BASE sample_config ++ envio_link_path)%string /\
     field_get "tipo_envio" (fields rq) = Some (Val (PStr "Whatsapp"))) /\
  "Whatsapp" <> "WhatsApp".
Proof.
  split; [vm_compute; reflexivity|]. split; [|discriminate].
  exists (call sample_config POST envio_link_path
            (bearer_headers (PStr "abc")) (envio_link_form (PStr "AF-9"))).
  split; [vm_compute; do 5 right; left; reflexivity|].
  split; reflexivity.
Qed.

(** C5, as the code has it.  A candidate without a net value has the key
    of net value zero, and the selection returns a candidate whenever
    every net value is missing or converts to a float.  A net value that
    is present and does not convert (a string that is not a number,
    [None], a list, an object) makes the selection raise. *)
Theorem valor_liquido_missing_or_not_numeric :
  (forall d, lookup "valor_liquido" d = None ->
     valor_liquido_key (PDict d) = Ok PyFloat.zero) /\
  (forall l, l <> [] ->
     (forall x, In x l ->
        exists d, x = PDict d /\
          (lookup "valor_liquido" d = None \/
           exists v k, lookup "valor_liquido" d = Some v /\ py_float v = Ok k)) ->
     exists best, select_best (PList l) = Ok best /\ In best l) /\
  (forall l d v e,
     In (PDict d) l -> lookup "valor_liquido" d = Some v -> py_float v = Err e ->
     exists e', select_best (PList l) = Err e') /\
  (forall s, PyFloat.of_string s = None -> py_float (PStr s) = Err ValueError) /\
  py_float PNone = Err TypeError /\
  (forall l, py_float (PList l) = Err TypeError) /\
  (forall d, py_float (PDict d) = Err TypeError).
Proof.
  split; [|split; [|split; [|split; [|repeat split]]]].
  - intros d H. unfold valor_liquido_key, py_get, rbind. now rewrite H.
  - intros l Hne H.
    destruct (sorted_reverse_total valor_liquido_key l Hne)
      as (best & rest & E & Hin).
    + intros x Hx. destruct (H x Hx) as (d & -> & [Hm | (v & k & Hv & Hk)]);
        unfold valor_liquido_key, py_get, rbind.
      * rewrite Hm. now exists PyFloat.zero.
      * rewrite Hv, Hk. now exists k.
    + exists best. unfold select_best. rewrite E. split; [reflexivity | exact Hin].
  - intros l d v e Hin Hv He.
    assert (Hk : valor_liquido_key (PDict d) = Err e)
      by (unfold valor_liquido_key, py_get, rbind; now rewrite Hv).
    destruct (keyed_fails valor_liquido_key l _ _ Hin Hk) as [e' E].
    exists e'. unfold select_best, sorted_reverse. cbn [py_iter rbind].
    now rewrite E.
  - intros s H. unfold py_float. now rewrite H.
Qed.

Lemma valor_liquido_missing_or_not_numeric_witness :
  valor_liquido_key (PDict [("codigoTabela", PInt 5)]) = Ok PyFloat.zero /\
  (exists best, select_best (PList no_prazo_tables) = Ok best /\
                In best no_prazo_tables) /\
  (exists e, select_best (PList not_numeric_tables) = Err e).
Proof.
  destruct valor_liquido_missing_or_not_numeric as (H1 & H2 & H3 & _).
  split; [apply H1; reflexivity|]. split.
  - apply H2; [discriminate|].
    intros x [<- | []]. eexists. split; [reflexivity|].
    right. exists (PInt 900), (PyFloat.round_Z 900). split; reflexivity.
  - apply (H3 not_numeric_tables
              [("codigoTabela", PInt 3); ("prazo", PInt 24);
               ("valor_liquido", PStr "abc")]
              (PStr "abc") ValueError).
    + right. left. reflexivity.
    + reflexivity.
    + vm_compute. reflexivity.
Defined.

(** C5 as stated fails: a net value that is a string but not a number is
    not taken as zero; its conversion raises [ValueError] and the
    operation ends there. *)
Lemma valor_liquido_not_numeric_fails :
  valor_liquido_key (table 3 24 (PStr "abc")) = Err ValueError /\
  select_best (PList not_numeric_tables) = Err ValueError /\
  snd (run (formalizar sample_config formalizar_body) lender_not_numeric)
  = Raise (Uncaught ValueError).
Proof. repeat split; vm_compute; reflexivity. Qed.

(** C2 at the available-operations call.  The token is issued and the
    available-operations call is answered by an HTML page: [formalizar]
    does not look at the content type, reads the body as JSON and ends
    with the decoding error, which is not UpstreamBlocked.  The offer
    query, given the same page, does raise its HTML message. *)
Theorem formalizar_html_reply_not_blocked :
  is_html html_page = true /\
  snd (run (formalizar sample_config formalizar_body) lender_html_at_operacoes)
  = Raise (Uncaught JSONDecodeError) /\
  failure (snd (run (formalizar sample_config formalizar_body)
                  lender_html_at_operacoes))
  = Some Unclassified /\
  failure (snd (run (consulta_ofertas sample_config consulta_body)
                  lender_html_at_consulta))
  = Some UpstreamBlocked.
Proof. repeat split; vm_compute; reflexivity. Qed.

(** * Further properties of the handlers *)

(** ** [get_token] *)

(** X1. [get_token] makes at most one request, and a request it makes
    is the token request, whatever the lender does; when nothing comes
    back the client's exception ends it, under no kind of the
    specification. *)
Theorem get_token_single_request cfg L :
  let tr := fst (run (get_token cfg) L) in
  (List.length tr <= 1)%nat /\
  (forall rq rp, In (rq, rp) tr ->
     rq = token_request cfg /\
     (rp = NoReply ->
        snd (run (get_token cfg) L) = Raise (Uncaught RequestError) /\
        failure (snd (run (get_token cfg) L)) = Some Unclassified)).
Proof.
  destruct (run (get_token cfg) L) as [tr out] eqn:Hrun.
  cbn [fst snd].
  exec_all Hrun; cbn [app] in Hrun; inversion Hrun; subst; clear Hrun;
  (split; [cbn; lia|]);
  intros rq rp [Hin | []]; injection Hin as <- <-;
  (split; [reflexivity|]); intros E; try discriminate E;
  split; reflexivity.
Qed.

Lemma get_token_single_request_witness :
  snd (run (get_token sample_config) lender_silent)
  = Raise (Uncaught RequestError) /\
  failure (snd (run (get_token sample_config) lender_silent))
  = Some Unclassified.
Proof.
  pose proof (get_token_single_request sample_config lender_silent) as H.
  cbv zeta in H. destruct H as (_ & H).
  destruct (H (token_request sample_config) NoReply) as (_ & Hn).
  - vm_compute. left. reflexivity.
  - exact (Hn eq_refl).
Defined.

(** X2. A 200 response that is not HTML and whose body is not JSON, or
    is JSON but not an object, ends [get_token] with an exception that
    nothing catches. *)
Theorem get_token_unusable_body cfg L rq r out :
  run (get_token cfg) L = ([(rq, Reply r)], out) ->
  is_html r = false -> status_code r = 200 ->
  (json_body r = None -> out = Raise (Uncaught JSONDecodeError)) /\
  (forall j, json_body r = Some j -> is_dict j = false ->
             out = Raise (Uncaught AttributeError)).
Proof.
  intros Hrun Hh Hs.
  exec_all Hrun; cbn [app] in Hrun; inversion Hrun; subst; clear Hrun; tidy;
  repeat match goal with
         | H : (_ =? _) = true |- _ => apply Z.eqb_eq in H
         | H : (_ =? _) = false |- _ => apply Z.eqb_neq in H
         end;
  try congruence;
  unfold json, py_get in *;
  (split; [intros Hj | intros j Hj Hd]); rewrite Hj in *; tidy;
  try reflexivity; try discriminate;
  match goal with
  | H : is_dict ?v = false |- _ => destruct v; try discriminate H
  end; tidy; reflexivity.
Qed.

Lemma get_token_unusable_body_witness :
  snd (run (get_token sample_config) lender_token_array)
  = Raise (Uncaught AttributeError).
Proof.
  refine (proj2
    (get_token_unusable_body sample_config lender_token_array
       (token_request sample_config) (json_response (PList [])) _ _ _ _)
    (PList []) _ _).
  - vm_compute. reflexivity.
  - reflexivity.
  - reflexivity.
  - reflexivity.
  - reflexivity.
Defined.

(** X3. When the token cannot be obtained, both handlers end with the
    failure of [get_token] and make no further request. *)
Theorem token_failure_ends_handlers cfg L tr e cbody fbody :
  run (get_token cfg) L = (tr, Raise e) ->
  run (consulta_ofertas cfg cbody) L = (tr, Raise e) /\
  run (formalizar cfg fbody) L = (tr, Raise e).
Proof.
  unfold run. intros H.
  unfold consulta_ofertas, formalizar, bind. rewrite H. split; reflexivity.
Qed.

Lemma token_failure_ends_handlers_witness :
  run (consulta_ofertas sample_config consulta_body)
      (scripted sample_config [("/gera-token", Reply html_page)])
  = ([(token_request sample_config, Reply html_page)],
     Raise (HTTPException 502 HtmlWafToken)) /\
  run (formalizar sample_config formalizar_body)
      (scripted sample_config [("/gera-token", Reply html_page)])
  = ([(token_request sample_config, Reply html_page)],
     Raise (HTTPException 502 HtmlWafToken)).
Proof.
  apply token_failure_ends_handlers. vm_compute. reflexivity.
Defined.

(** When [get_token] returns, this is its run. *)
Lemma get_token_returns cfg L r j token :
  L [] (token_request cfg) = Reply r ->
  is_html r = false ->
  negb (status_code r =? 200) = false ->
  json r = Ok j ->
  py_get j "token" PNone = Ok token ->
  negb (truthy token) = false ->
  run (get_token cfg) L = ([(token_request cfg, Reply r)], Return token).
Proof.
  intros H1 H2 H3 H4 H5 H6.
  unfold run, get_token, bind, send, py, ret, raise.
  rewrite H1, H2, H3, H4, H5, H6. reflexivity.
Qed.

(** ** [consulta_ofertas] *)

(** X4. An HTML response to the offer lookup gives the HTML message (502,
    UpstreamBlocked) whatever its status and body; a response that is not
    HTML and whose body is not JSON gives the 502 that carries the body
    text (UpstreamProtocolError). *)
Theorem consulta_ofertas_lookup_errors cfg body L tr out rq r :
  run (consulta_ofertas cfg body) L = (tr, out) ->
  In (rq, Reply r) tr ->
  url rq = (FACTA_BASE cfg ++ "/consignado-trabalhador/consulta-ofertas")%string ->
  (is_html r = true ->
     out = Raise (HTTPException 502 HtmlWafConsulta) /\
     failure out = Some UpstreamBlocked) /\
  (is_html r = false -> json_body r = None ->
     out = Raise (HTTPException 502 (ConsultaError (text r))) /\
     failure out = Some UpstreamProtocolError).
Proof.
  intros Hrun Hin Hurl.
  exec_all Hrun; inversion Hrun; subst tr out; clear Hrun;
  pick_exchange Hin Hurl; forget_replies L;
  (split; [intros Hh | intros Hh Hj]); try congruence;
  try (split; reflexivity);
  unfold json in *; rewrite Hj in *; tidy.
Qed.

Lemma consulta_ofertas_lookup_errors_witness :
  snd (run (consulta_ofertas sample_config consulta_body) lender_consulta_text)
  = Raise (HTTPException 502 (ConsultaError "erro")).
Proof.
  refine (proj1 (proj2
    (consulta_ofertas_lookup_errors sample_config consulta_body
       lender_consulta_text
       (fst (run (consulta_ofertas sample_config consulta_body)
               lender_consulta_text))
       _
       (consulta_request sample_config (PStr "abc") "12345678909")
       server_error _ _ _) _ _)).
  - apply surjective_pairing.
  - vm_compute. right. left. reflexivity.
  - reflexivity.
  - reflexivity.
  - reflexivity.
Defined.

(** X5. [consulta_ofertas] makes at most two calls, the token call and
    then the lookup call, in that order; the lookup request does not
    carry the pre-shared credential: it is the lookup request with the
    token that [get_token] returned and the canonical id number. *)
Theorem consulta_ofertas_calls cfg body L :
  let tr := fst (run (consulta_ofertas cfg body) L) in
  map call_of tr = firstn (List.length tr) (consulta_calls cfg) /\
  (List.length tr <= 2)%nat /\
  (forall rq rp, In (rq, rp) (tl tr) ->
     has_basic rq = false /\
     exists token,
       run (get_token cfg) L = (firstn 1 tr, Return token) /\
       rq = consulta_request cfg token (digits (Some (ConsultaIn.cpf body)))).
Proof.
  destruct (run (consulta_ofertas cfg body) L) as [tr out] eqn:Hrun.
  cbn [fst].
  exec_all Hrun; inversion Hrun; subst tr out; clear Hrun;
  (split; [reflexivity|]); (split; [cbn; lia|]);
  intros rq rp Hin; cbn [tl app In] in Hin;
  try contradiction;
  destruct Hin as [Hin | []]; injection Hin as <- <-;
  (split; [reflexivity|]);
  eexists; (split; [|reflexivity]);
  cbn [firstn app]; eapply get_token_returns; eassumption.
Qed.

Lemma consulta_ofertas_calls_witness :
  run (get_token sample_config) lender_one_offer
  = ([(token_request sample_config, snd token_ok)], Return (PStr "abc")) /\
  has_basic (consulta_request sample_config (PStr "abc") "12345678909") = false.
Proof.
  pose proof (consulta_ofertas_calls sample_config consulta_body
                lender_one_offer) as H.
  cbv zeta in H. destruct H as (_ & _ & H).
  destruct (H (consulta_request sample_config (PStr "abc") "12345678909")
              (json_reply one_offer_body))
    as (Hb & token & Ht & Hrq).
  - vm_compute. left. reflexivity.
  - assert (E : token = PStr "abc")
      by (unfold consulta_request in Hrq; injection Hrq as <-; reflexivity).
    rewrite E in Ht. split; [|exact Hb].
    rewrite Ht. vm_compute. reflexivity.
Defined.

(** ** [formalizar] *)

(** X6. The calls of [formalizar] are an initial part of the six calls of
    the workflow, in their order; a call is made only when every earlier
    one came back with a response. *)
Theorem formalizar_call_order cfg body L :
  let tr := fst (run (formalizar cfg body) L) in
  map call_of tr = firstn (List.length tr) (workflow_calls cfg) /\
  (List.length tr <= 6)%nat /\
  forallb replied (removelast tr) = true.
Proof.
  destruct (run (formalizar cfg body) L) as [tr out] eqn:Hrun.
  cbn [fst].
  exec_all Hrun; inversion Hrun; subst tr out; clear Hrun;
  (split; [reflexivity|]); (split; [cbn; lia|]); reflexivity.
Qed.

(** X7. A first request of [formalizar] is the token request, the only
    one that carries the pre-shared credential; every later request
    carries the bearer token that [get_token] returned. *)
Theorem formalizar_one_token cfg body L :
  let tr := fst (run (formalizar cfg body) L) in
  (forall rq rp, hd_error tr = Some (rq, rp) ->
     rq = token_request cfg /\ has_basic rq = true) /\
  (forall rq rp, In (rq, rp) (tl tr) ->
     has_basic rq = false /\
     exists token,
       run (get_token cfg) L = (firstn 1 tr, Return token) /\
       headers rq = bearer_headers token).
Proof.
  destruct (run (formalizar cfg body) L) as [tr out] eqn:Hrun.
  cbn [fst].
  exec_all Hrun; inversion Hrun; subst tr out; clear Hrun;
  (split; [intros rq rp Hhd; cbn [hd_error app] in Hhd;
           injection Hhd as <- <-; split; reflexivity|]);
  intros rq rp Hin; cbn [tl app In] in Hin;
  try contradiction;
  repeat (destruct Hin as [Hin | Hin];
          [ injection Hin as <- <-;
            (split; [reflexivity|]);
            eexists; (split; [|reflexivity]);
            cbn [firstn app]; eapply get_token_returns; eassumption
          | ]);
  contradiction.
Qed.

Lemma formalizar_one_token_witness :
  run (get_token sample_config) lender_all_steps
  = ([(token_request sample_config, snd token_ok)], Return (PStr "abc")) /\
  headers sample_dados_request = bearer_headers (PStr "abc").
Proof.
  pose proof (formalizar_one_token sample_config formalizar_body
                lender_all_steps) as H.
  cbv zeta in H. destruct H as (_ & H).
  destruct (H sample_dados_request (snd dados_ok)) as (_ & token & Ht & Hh).
  - vm_compute. do 2 right. left. reflexivity.
  - assert (E : token = PStr "abc")
      by (vm_compute in Hh; injection Hh as <-; reflexivity).
    rewrite E in Ht, Hh. split; [|exact Hh].
    rewrite Ht. vm_compute. reflexivity.
Defined.

(** X8. The register call carries the simulation identifier read from a
    truthy [id_simulador] of the simulate reply, and the proposal call
    carries that identifier, the client code read from a truthy
    [codigo_cliente] of the register reply, and the marker DIG. *)
Theorem formalizar_threads_identifiers cfg body L tr out :
  run (formalizar cfg body) L = (tr, out) ->
  (forall rq rp, In (rq, rp) tr ->
     url rq = (FACTA_BASE cfg ++ "/proposta/etapa2-dados-pessoais")%string ->
     exists rq2 r2 d2 id,
       In (rq2, Reply r2) tr /\
       url rq2 = (FACTA_BASE cfg ++ "/proposta/etapa1-simulador")%string /\
       json_body r2 = Some (PDict d2) /\
       lookup "id_simulador" d2 = Some id /\ truthy id = true /\
       field_get "id_simulador" (fields rq) = Some (Val id)) /\
  (forall rq rp, In (rq, rp) tr ->
     url rq = (FACTA_BASE cfg ++ "/proposta/etapa3-proposta-cadastro")%string ->
     exists rq2 r2 d2 id rq3 r3 d3 cc,
       In (rq2, Reply r2) tr /\
       url rq2 = (FACTA_BASE cfg ++ "/proposta/etapa1-simulador")%string /\
       json_body r2 = Some (PDict d2) /\
       lookup "id_simulador" d2 = Some id /\ truthy id = true /\
       In (rq3, Reply r3) tr /\
       url rq3 = (FACTA_BASE cfg ++ "/proposta/etapa2-dados-pessoais")%string /\
       json_body r3 = Some (PDict d3) /\
       lookup "codigo_cliente" d3 = Some cc /\ truthy cc = true /\
       fields rq = [ ("codigo_cliente", Val cc);
                     ("id_simulador", Val id);
                     ("tipo_formalizacao", Val (PStr "DIG")) ]).
Proof.
  intros Hrun.
  exec_all Hrun; inversion Hrun; subst tr out; clear Hrun; forget_replies L;
  (split; intros rq rp Hin Hurl; pick_exchange Hin Hurl);
  unfold json, py_get in *;
  repeat match goal with
         | H : match ?x with _ => _ end = Ok _ |- _ =>
             destruct x eqn:?; try discriminate H
         end;
  tidy;
  repeat match goal with
         | H : truthy (match lookup ?k ?d with _ => _ end) = true |- _ =>
             let v := fresh "v" in
             let E := fresh "E" in
             destruct (lookup k d) as [v|] eqn:E; [|discriminate H]
         end.
  all: try (eexists _, _, _, _;
            (split; [cbn [In app]; do 2 right; left; reflexivity|]);
            (split; [reflexivity|]); (split; [eassumption|]);
            (split; [eassumption|]); (split; [eassumption|]);
            reflexivity).
  all: eexists _, _, _, _, _, _, _, _;
       (split; [cbn [In app]; do 2 right; left; reflexivity|]);
       (split; [reflexivity|]); (split; [eassumption|]);
       (split; [eassumption|]); (split; [eassumption|]);
       (split; [cbn [In app]; do 3 right; left; reflexivity|]);
       (split; [reflexivity|]); (split; [eassumption|]);
       (split; [eassumption|]); (split; [eassumption|]);
       reflexivity.
Qed.

Lemma formalizar_threads_identifiers_witness :
  exists id,
    field_get "id_simulador" (fields sample_dados_request) = Some (Val id) /\
    truthy id = true.
Proof.
  destruct (proj1
    (formalizar_threads_identifiers sample_config formalizar_body
       lender_all_steps _ _ (surjective_pairing _))
    sample_dados_request (snd dados_ok))
    as (_ & _ & _ & id & _ & _ & _ & _ & Ht & Hf).
  - vm_compute. do 3 right. left. reflexivity.
  - reflexivity.
  - exists id. split; [exact Hf | exact Ht].
Defined.

(** X9. [formalizar] returns only after all six calls came back with a
    response, and what it returns is the success body with a truthy
    proposal code. *)
Theorem formalizar_success_all_steps cfg body L v :
  snd (run (formalizar cfg body) L) = Return v ->
  let tr := fst (run (formalizar cfg body) L) in
  map call_of tr = workflow_calls cfg /\
  forallb replied tr = true /\
  exists codigo url_form,
    v = formalizar_result codigo url_form /\ truthy codigo = true.
Proof.
  destruct (run (formalizar cfg body) L) as [tr out] eqn:Hrun.
  cbn [fst snd]. intros Hout.
  exec_all Hrun; cbn [app] in Hrun; injection Hrun as Htr Ho; subst tr out;
  try discriminate Hout; forget_replies L; tidy.
  injection Hout as <-.
  split; [reflexivity|]. split; [reflexivity|].
  eexists _, _. split; [reflexivity | assumption].
Qed.

Lemma formalizar_success_all_steps_witness :
  map call_of (fst (run (formalizar sample_config formalizar_body)
                      lender_all_steps))
  = workflow_calls sample_config.
Proof.
  refine (proj1 (formalizar_success_all_steps sample_config formalizar_body
                   lender_all_steps _ _)).
  vm_compute. reflexivity.
Defined.

(** X10. When the reply of the simulate step is an object whose
    [id_simulador] is absent or falsy (zero, empty), the operation fails
    as StepFailed("simulate") with that object, and the simulate call is
    the third and last call. *)
Theorem formalizar_simulate_without_id cfg body L tr out rq r2 d :
  run (formalizar cfg body) L = (tr, out) ->
  In (rq, Reply r2) tr ->
  url rq = (FACTA_BASE cfg ++ "/proposta/etapa1-simulador")%string ->
  json_body r2 = Some (PDict d) ->
  truthy (or_default (lookup "id_simulador" d) PNone) = false ->
  out = Raise (HTTPException 502 (FalhaEtapa1 (PDict d))) /\
  failure out = Some (StepFailed "simulate" (PDict d)) /\
  (exists before, tr = (before ++ [(rq, Reply r2)])%list) /\
  List.length tr = 3%nat.
Proof.
  intros Hrun Hin Hurl Hj Hc. unfold or_default in Hc.
  exec_all Hrun; inversion Hrun; subst tr out; clear Hrun;
  pick_exchange Hin Hurl; forget_replies L;
  unfold json, py_get in *; rewrite Hj in *; tidy;
  try congruence.
  split; [reflexivity|]. split; [reflexivity|]. split; [|reflexivity].
  eexists [_; _]. reflexivity.
Qed.

Lemma formalizar_simulate_without_id_witness :
  snd (run (formalizar sample_config formalizar_body) lender_simulate_zero)
  = Raise (HTTPException 502 (FalhaEtapa1 (PDict simulate_zero))).
Proof.
  refine (proj1
    (formalizar_simulate_without_id sample_config formalizar_body
       lender_simulate_zero
       (fst (run (formalizar sample_config formalizar_body)
               lender_simulate_zero))
       _ sample_simulador_request (json_response (PDict simulate_zero))
       simulate_zero _ _ _ _ _)).
  - apply surjective_pairing.
  - vm_compute. do 2 right. left. reflexivity.
  - reflexivity.
  - reflexivity.
  - reflexivity.
Defined.

(** X11. When the reply of the proposal step is an object whose [codigo]
    is absent or falsy, the operation fails as StepFailed("proposal")
    with that object, even if the formalization URL is there; the
    proposal call is the fifth and last call, so no link is sent. *)
Theorem formalizar_proposal_without_code cfg body L tr out rq r4 d :
  run (formalizar cfg body) L = (tr, out) ->
  In (rq, Reply r4) tr ->
  url rq = (FACTA_BASE cfg ++ "/proposta/etapa3-proposta-cadastro")%string ->
  json_body r4 = Some (PDict d) ->
  truthy (or_default (lookup "codigo" d) PNone) = false ->
  out = Raise (HTTPException 502 (FalhaEtapa3 (PDict d))) /\
  failure out = Some (StepFailed "proposal" (PDict d)) /\
  (exists before, tr = (before ++ [(rq, Reply r4)])%list) /\
  List.length tr = 5%nat.
Proof.
  intros Hrun Hin Hurl Hj Hc. unfold or_default in Hc.
  exec_all Hrun; inversion Hrun; subst tr out; clear Hrun;
  pick_exchange Hin Hurl; forget_replies L;
  unfold json, py_get in *; rewrite Hj in *; tidy;
  try congruence.
  split; [reflexivity|]. split; [reflexivity|]. split; [|reflexivity].
  eexists [_; _; _; _]. reflexivity.
Qed.

Lemma formalizar_proposal_without_code_witness :
  snd (run (formalizar sample_config formalizar_body) lender_proposal_url_only)
  = Raise (HTTPException 502 (FalhaEtapa3 (PDict proposal_url_only))).
Proof.
  refine (proj1
    (formalizar_proposal_without_code sample_config formalizar_body
       lender_proposal_url_only
       (fst (run (formalizar sample_config formalizar_body)
               lender_proposal_url_only))
       _ sample_proposta_request (json_response (PDict proposal_url_only))
       proposal_url_only _ _ _ _ _)).
  - apply surjective_pairing.
  - vm_compute. do 4 right. left. reflexivity.
  - reflexivity.
  - reflexivity.
  - reflexivity.
Defined.

(** X12. At each of the four calls whose reply [formalizar] reads
    (available operations, simulate, register, proposal), a body that is
    not JSON ends the operation with the decoding error, and a JSON body
    that is not an object with an attribute error; neither is caught, and
    that call is the last one made. *)
Theorem formalizar_unreadable_reply cfg body L tr out rq r path :
  run (formalizar cfg body) L = (tr, out) ->
  In (rq, Reply r) tr ->
  url rq = (FACTA_BASE cfg ++ path)%string ->
  In path [ "/proposta/operacoes-disponiveis";
            "/proposta/etapa1-simulador";
            "/proposta/etapa2-dados-pessoais";
            "/proposta/etapa3-proposta-cadastro" ] ->
  (json_body r = None ->
     out = Raise (Uncaught JSONDecodeError) /\
     exists before, tr = (before ++ [(rq, Reply r)])%list) /\
  (forall j, json_body r = Some j -> is_dict j = false ->
     out = Raise (Uncaught AttributeError) /\
     exists before, tr = (before ++ [(rq, Reply r)])%list).
Proof.
  intros Hrun Hin Hurl Hp.
  cbn [In] in Hp.
  exec_all Hrun; inversion Hrun; subst tr out; clear Hrun; forget_replies L;
  cbn [In app] in Hin;
  repeat (destruct Hin as [Hin | Hin];
          [ first [ discriminate Hin
                  | injection Hin as ? ?; subst; show_url Hurl;
                    apply append_inj_l in Hurl; subst path;
                    try (repeat (destruct Hp as [Hp | Hp];
                                 [try discriminate Hp|]); contradiction) ]
          | ]);
  try contradiction;
  clear Hp;
  unfold json, py_get in *;
  (split; [intros Hj | intros j Hj Hd]); rewrite Hj in *; tidy;
  try match goal with
      | H : is_dict ?v = false |- _ => destruct v; try discriminate H
      end; tidy;
  (split; [reflexivity|]);
  first [ eexists [_]; reflexivity
        | eexists [_; _]; reflexivity
        | eexists [_; _; _]; reflexivity
        | eexists [_; _; _; _]; reflexivity ].
Qed.

Lemma formalizar_unreadable_reply_witness :
  snd (run (formalizar sample_config formalizar_body) lender_register_array)
  = Raise (Uncaught AttributeError).
Proof.
  refine (proj1 (proj2
    (formalizar_unreadable_reply sample_config formalizar_body
       lender_register_array
       (fst (run (formalizar sample_config formalizar_body)
               lender_register_array))
       _ sample_dados_request (json_response (PList []))
       "/proposta/etapa2-dados-pessoais" _ _ _ _)
    (PList []) _ _)).
  - apply surjective_pairing.
  - vm_compute. do 3 right. left. reflexivity.
  - reflexivity.
  - do 2 right. left. reflexivity.
  - reflexivity.
  - reflexivity.
Defined.

(** X13. Every [HTTPException] of [get_token] and [consulta_ofertas] has
    status 502; those of [formalizar] have status 502 except the
    no-table failure, which alone has status 400. *)
Theorem handler_failure_statuses cfg cbody fbody L s d :
  (snd (run (get_token cfg) L) = Raise (HTTPException s d) -> s = 502) /\
  (snd (run (consulta_ofertas cfg cbody) L) = Raise (HTTPException s d) ->
     s = 502) /\
  (snd (run (formalizar cfg fbody) L) = Raise (HTTPException s d) ->
     (s = 400 /\ d = SemTabela) \/ (s = 502 /\ d <> SemTabela)).
Proof.
  split; [|split].
  - destruct (run (get_token cfg) L) as [tr out] eqn:Hrun. cbn [snd].
    intros Hout.
    exec_all Hrun; injection Hrun as Htr Ho; subst tr out;
    inversion Hout; reflexivity.
  - destruct (run (consulta_ofertas cfg cbody) L) as [tr out] eqn:Hrun.
    cbn [snd]. intros Hout.
    exec_all Hrun; injection Hrun as Htr Ho; subst tr out;
    inversion Hout; reflexivity.
  - destruct (run (formalizar cfg fbody) L) as [tr out] eqn:Hrun.
    cbn [snd]. intros Hout.
    exec_all Hrun; injection Hrun as Htr Ho; subst tr out;
    inversion Hout; subst;
    first [ left; split; reflexivity
          | right; split; [reflexivity | discriminate] ].
Qed.

Lemma handler_failure_statuses_witness :
  (400 = 400 /\ SemTabela = SemTabela) \/ (400 = 502 /\ SemTabela <> SemTabela).
Proof.
  refine (proj2 (proj2
    (handler_failure_statuses sample_config consulta_body formalizar_body
       lender_no_table 400 SemTabela)) _).
  vm_compute. reflexivity.
Defined.

(** Reading a dictionary after an assignment. *)
Lemma lookup_dict_set k v d k' :
  lookup k' (dict_set k v d) = if String.eqb k' k then Some v else lookup k' d.
Proof.
  induction d as [|[k0 v0] d IH]; simpl.
  - destruct (String.eqb k' k); reflexivity.
  - destruct (String.eqb k k0) eqn:E; simpl.
    + apply String.eqb_eq in E. subst k0.
      destruct (String.eqb k' k); reflexivity.
    + destruct (String.eqb k' k0) eqn:E0.
      * apply String.eqb_eq in E0. subst k0.
        rewrite String.eqb_sym, E. reflexivity.
      * exact IH.
Qed.

Lemma field_get_as_fields k d :
  field_get k (as_fields d) = option_map Val (lookup k d).
Proof.
  induction d as [|[k0 v0] d IH]; simpl; [reflexivity|].
  destruct (String.eqb k k0); [reflexivity | exact IH].
Qed.

Lemma dados_pessoais_form_fields cpf body id :
  (forall k, k <> "cpf" -> k <> "id_simulador" ->
     field_get k (dados_pessoais_form cpf body id)
     = option_map Val (lookup k (FormalizarIn.model_dump body))) /\
  field_get "cpf" (dados_pessoais_form cpf body id) = Some (Val (PStr cpf)) /\
  field_get "id_simulador" (dados_pessoais_form cpf body id) = Some (Val id) /\
  map fst (dados_pessoais_form cpf body id)
  = (map fst (FormalizarIn.model_dump body) ++ ["id_simulador"])%list.
Proof.
  split; [|repeat split].
  intros k Hc Hi. unfold dados_pessoais_form.
  rewrite field_get_as_fields, !lookup_dict_set.
  apply String.eqb_neq in Hc, Hi. now rewrite Hc, Hi.
Qed.

(** X14. The register call sends every field of the applicant as it was
    given, in the order of the schema, except the id number, which is
    sent in canonical form; the simulation identifier is added at the
    end. *)
Theorem formalizar_register_form cfg body L tr out rq rp :
  run (formalizar cfg body) L = (tr, out) ->
  In (rq, rp) tr ->
  url rq = (FACTA_BASE cfg ++ "/proposta/etapa2-dados-pessoais")%string ->
  (forall k, k <> "cpf" -> k <> "id_simulador" ->
     field_get k (fields rq)
     = option_map Val (lookup k (FormalizarIn.model_dump body))) /\
  field_get "cpf" (fields rq)
  = Some (Val (PStr (digits (Some (FormalizarIn.cpf body))))) /\
  map fst (fields rq)
  = (map fst (FormalizarIn.model_dump body) ++ ["id_simulador"])%list.
Proof.
  intros Hrun Hin Hurl.
  exec_all Hrun; inversion Hrun; subst tr out; clear Hrun; forget_replies L;
  pick_exchange Hin Hurl; cbn [fields call];
  match goal with
  | |- context [dados_pessoais_form ?c ?b ?i] =>
      destruct (dados_pessoais_form_fields c b i) as (H1 & H2 & _ & H4)
  end;
  (split; [exact H1|]); (split; [exact H2 | exact H4]).
Qed.

Lemma formalizar_register_form_witness :
  field_get "nome_mae" (fields sample_dados_request)
  = option_map Val (lookup "nome_mae" (FormalizarIn.model_dump formalizar_body)).
Proof.
  refine (proj1
    (formalizar_register_form sample_config formalizar_body lender_all_steps
       (fst (run (formalizar sample_config formalizar_body) lender_all_steps))
       _ sample_dados_request (snd dados_ok) _ _ _)
    "nome_mae" _ _).
  - apply surjective_pairing.
  - vm_compute. do 3 right. left. reflexivity.
  - reflexivity.
  - discriminate.
  - discriminate.
Defined.

(** X15. When the selection of the table raises, [formalizar] ends with
    that exception, which nothing catches, after the token and
    available-operations calls only. *)
Theorem formalizar_selection_fails cfg body L tr out rq r1 d1 t e :
  run (formalizar cfg body) L = (tr, out) ->
  In (rq, Reply r1) tr ->
  url rq = (FACTA_BASE cfg ++ "/proposta/operacoes-disponiveis")%string ->
  json_body r1 = Some (PDict d1) ->
  lookup "tabelas" d1 = Some t ->
  truthy t = true ->
  select_best t = Err e ->
  out = Raise (Uncaught e) /\
  failure out = Some Unclassified /\
  List.length tr = 2%nat.
Proof.
  intros Hrun Hin Hurl Hj Ht Htr Hsel.
  exec_all Hrun; inversion Hrun; subst tr out; clear Hrun;
  pick_exchange Hin Hurl; forget_replies L;
  unfold json in *; unfold py_get in *; rewrite Hj in *; tidy;
  rewrite Ht in *; try congruence; rewrite Hsel in *; tidy.
  repeat split.
Qed.

Lemma formalizar_selection_fails_witness :
  snd (run (formalizar sample_config formalizar_body) lender_tabelas_text)
  = Raise (Uncaught AttributeError).
Proof.
  refine (proj1
    (formalizar_selection_fails sample_config formalizar_body
       lender_tabelas_text
       (fst (run (formalizar sample_config formalizar_body)
               lender_tabelas_text))
       _ sample_operacoes_request (json_response (PDict tabelas_text))
       tabelas_text (PStr "indisponivel") AttributeError _ _ _ _ _ _ _)).
  - apply surjective_pairing.
  - vm_compute. right. left. reflexivity.
  - reflexivity.
  - reflexivity.
  - reflexivity.
  - reflexivity.
  - reflexivity.
Defined.

(** ** [digits] *)

Lemma re_sub_nondigit_app (s1 s2 : string) :
  re_sub_nondigit (s1 ++ s2) = (re_sub_nondigit s1 ++ re_sub_nondigit s2)%string.
Proof.
  induction s1 as [|c s1 IH]; simpl; [reflexivity|].
  destruct (PyFloat.is_digit c); simpl; now rewrite IH.
Qed.

Lemma re_sub_nondigit_digits (s : string) :
  forallb PyFloat.is_digit (list_ascii_of_string (re_sub_nondigit s)) = true.
Proof.
  induction s as [|c s IH]; simpl; [reflexivity|].
  destruct (PyFloat.is_digit c) eqn:E; simpl; [rewrite E|]; exact IH.
Qed.

Lemma re_sub_nondigit_fix (s : string) :
  forallb PyFloat.is_digit (list_ascii_of_string s) = true -> re_sub_nondigit s = s.
Proof.
  induction s as [|c s IH]; simpl; [reflexivity|].
  destruct (PyFloat.is_digit c); simpl; [|discriminate].
  intros H. now rewrite IH.
Qed.

Lemma re_sub_nondigit_length (s : string) :
  (String.length (re_sub_nondigit s) <= String.length s)%nat.
Proof.
  induction s as [|c s IH]; simpl; [lia|].
  destruct (PyFloat.is_digit c); simpl; lia.
Qed.

(** X16. [digits] of no string is the empty string; applying [digits]
    twice is applying it once; its result holds digits only and is never
    longer than its argument; and it distributes over concatenation. *)
Theorem digits_properties :
  digits None = "" /\
  (forall s, digits (Some (digits (Some s))) = digits (Some s)) /\
  (forall s, forallb PyFloat.is_digit (list_ascii_of_string (digits (Some s))) = true) /\
  (forall s1 s2,
     digits (Some (s1 ++ s2)) = (digits (Some s1) ++ digits (Some s2))%string) /\
  (forall s, (String.length (digits (Some s)) <= String.length s)%nat).
Proof.
  unfold digits. split; [reflexivity|]. split; [|split; [|split]].
  - intros s. apply re_sub_nondigit_fix, re_sub_nondigit_digits.
  - apply re_sub_nondigit_digits.
  - apply re_sub_nondigit_app.
  - apply re_sub_nondigit_length.
Qed.

(** ** The selection of the table *)

Lemma keyed_first_failure kf (pre post : list pyval) x e :
  (forall y, In y pre -> exists k, kf y = Ok k) ->
  kf x = Err e ->
  keyed kf (pre ++ x :: post) = Err e.
Proof.
  induction pre as [|y pre IH]; intros Hpre Hx; simpl.
  - now rewrite Hx.
  - destruct (Hpre y (or_introl eq_refl)) as [k ->]. simpl.
    rewrite IH; [reflexivity | | exact Hx].
    intros z Hz. apply Hpre. now right.
Qed.

(** X17. The selection raises the exception of the first candidate, in
    list order, whose key cannot be computed; a candidate that is not an
    object has no key; a table list that is a non-empty text or object
    gives an attribute error, one that is [None], a boolean or a number a
    type error. *)
Theorem select_best_errors :
  (forall pre post x e,
     (forall y, In y pre -> exists k, valor_liquido_key y = Ok k) ->
     valor_liquido_key x = Err e ->
     select_best (PList (pre ++ x :: post)) = Err e) /\
  (forall x, is_dict x = false -> valor_liquido_key x = Err AttributeError) /\
  (forall c s, select_best (PStr (String c s)) = Err AttributeError) /\
  (forall kv d, select_best (PDict (kv :: d)) = Err AttributeError) /\
  select_best PNone = Err TypeError /\
  (forall b, select_best (PBool b) = Err TypeError) /\
  (forall z, select_best (PInt z) = Err TypeError) /\
  (forall f, select_best (PFloat f) = Err TypeError).
Proof.
  split; [|split; [|repeat split]].
  - intros pre post x e Hpre Hx.
    unfold select_best, sorted_reverse. cbn [py_iter rbind].
    now rewrite (keyed_first_failure _ pre post x e Hpre Hx).
  - intros x Hx. destruct x; try discriminate Hx; reflexivity.
Qed.

Lemma select_best_errors_witness :
  select_best (PList [table 1 24 (PInt 1000); PStr "x"; table 2 24 PNone])
  = Err AttributeError.
Proof.
  destruct select_best_errors as (H & Hd & _).
  apply (H [table 1 24 (PInt 1000)] [table 2 24 PNone] (PStr "x")).
  - intros y [<- | []]. eexists. vm_compute. reflexivity.
  - apply Hd. reflexivity.
Defined.

Section ByKey.
Variable P : pyval -> pyval -> Prop.

Lemma insert_same_key x x' l l' :
  same_key P x x' -> Forall2 (same_key P) l l' ->
  Forall2 (same_key P) (insert x l) (insert x' l').
Proof.
  intros Hx H. induction H as [|y y' l l' Hy H IH]; simpl.
  - constructor; [exact Hx | constructor].
  - rewrite <- (proj1 Hx), <- (proj1 Hy).
    destruct (PyFloat.ltb (fst x) (fst y)).
    + constructor; [exact Hx|]. constructor; [exact Hy | exact H].
    + constructor; [exact Hy|]. apply IH.
Qed.

Lemma fold_insert_same_key l l' :
  Forall2 (same_key P) l l' ->
  forall acc acc',
    Forall2 (same_key P) acc acc' ->
    Forall2 (same_key P)
      (fold_left (fun a x => insert x a) l acc)
      (fold_left (fun a x => insert x a) l' acc').
Proof.
  induction 1 as [|x x' l l' Hx H IH]; intros acc acc' Ha; simpl.
  - exact Ha.
  - apply IH. now apply insert_same_key.
Qed.

Lemma rev_same_key l l' :
  Forall2 (same_key P) l l' -> Forall2 (same_key P) (rev l) (rev l').
Proof.
  induction 1 as [|x x' l l' Hx H IH]; simpl; [constructor|].
  apply Forall2_app; [exact IH|]. constructor; [exact Hx | constructor].
Qed.

Lemma keyed_same_key kf l l' :
  Forall2 (fun x y => kf x = kf y /\ P x y) l l' ->
  forall ks, keyed kf l = Ok ks ->
  exists ks', keyed kf l' = Ok ks' /\ Forall2 (same_key P) ks ks'.
Proof.
  induction 1 as [|x y l l' [Hk Hp] H IH]; intros ks E; simpl in *.
  - inversion E. exists []. split; [reflexivity | constructor].
  - rewrite <- Hk. destruct (kf x) as [k|e]; simpl in *; [|discriminate].
    destruct (keyed kf l) as [r|e]; simpl in *; [|discriminate].
    inversion E; subst. destruct (IH r eq_refl) as (r' & -> & F). simpl.
    eexists. split; [reflexivity|]. constructor; [split; [reflexivity | exact Hp] | exact F].
Qed.

End ByKey.

Lemma Forall2_in_combine {A B} (Q : A -> B -> Prop) l l' :
  Forall2 Q l l' ->
  Forall2 (fun x y => Q x y /\ In (x, y) (combine l l')) l l'.
Proof.
  induction 1 as [|x y l l' Hq H IH]; [constructor|].
  constructor; [split; [exact Hq | now left]|].
  eapply Forall2_impl; [|exact IH].
  intros a b [Ha Hb]. split; [exact Ha | now right].
Qed.

(** X18. The selection looks at the net value only: two lists whose
    candidates have, position by position, the same key (whether it is a
    float or an exception) have their selected candidates at the same
    position. *)
Theorem select_best_by_key_only (l l' : list pyval) best :
  Forall2 (fun x y => valor_liquido_key x = valor_liquido_key y) l l' ->
  select_best (PList l) = Ok best ->
  exists best',
    select_best (PList l') = Ok best' /\ In (best, best') (combine l l').
Proof.
  intros H E. apply Forall2_in_combine in H.
  unfold select_best, sorted_reverse in *. cbn [py_iter rbind] in *.
  destruct (keyed valor_liquido_key l) as [ks|e] eqn:Ek; [|discriminate].
  destruct (keyed_same_key _ _ _ _ H ks Ek) as (ks' & -> & F).
  cbn [rbind] in *.
  assert (F' : Forall2 (same_key (fun x y => In (x, y) (combine l l')))
                 (rev (sort_up (rev ks))) (rev (sort_up (rev ks')))).
  { apply rev_same_key. unfold sort_up.
    apply fold_insert_same_key; [|constructor]. now apply rev_same_key. }
  destruct F' as [|p q r r' [_ Hp] _]; simpl in *; [discriminate|].
  inversion E; subst. exists (snd q). split; [reflexivity | exact Hp].
Qed.

Lemma select_best_by_key_only_witness :
  exists best',
    select_best (PList bare_tables) = Ok best' /\
    In (table 2 24 (PStr "1500.00"), best') (combine two_tables bare_tables).
Proof.
  apply select_best_by_key_only.
  - repeat constructor.
  - vm_compute. reflexivity.
Defined.

(** ** Start-up configuration *)

Lemma rstrip_slash_snoc (s : string) :
  rstrip_slash (s ++ "/") = rstrip_slash s.
Proof.
  induction s as [|c s IH]; [reflexivity|].
  simpl. now rewrite IH.
Qed.

Lemma rstrip_slash_last (s : string) :
  last_char (rstrip_slash s) <> Some "/"%char.
Proof.
  induction s as [|c s IH]; simpl; [discriminate|].
  destruct (rstrip_slash s) as [|c' r] eqn:E.
  - destruct (Ascii.eqb c "/") eqn:Ec; simpl; [discriminate|].
    intros H. injection H as ->. discriminate Ec.
  - exact IH.
Qed.

Lemma rstrip_slash_only (s : string) :
  exists n, s = (rstrip_slash s ++ slashes n)%string.
Proof.
  induction s as [|c s [n IH]]; simpl.
  - now exists O.
  - destruct (rstrip_slash s) as [|c' r] eqn:E.
    + destruct (Ascii.eqb c "/") eqn:Ec.
      * apply Ascii.eqb_eq in Ec. subst c. exists (S n). simpl.
        now rewrite IH at 1.
      * exists n. simpl. now rewrite IH at 1.
    + exists n. simpl. simpl in IH. now rewrite IH at 1.
Qed.

(** X19. The base URL never ends with a slash: it is the configured URL
    without its trailing slashes, so a configured URL with one more slash
    at its end gives the same configuration. *)
Theorem facta_base_without_trailing_slash :
  (forall env, last_char (facta_base env) <> Some "/"%char) /\
  (forall env u, env "FACTA_BASE_URL" = Some u ->
     exists n, u = (facta_base env ++ slashes n)%string) /\
  (forall env u timeout, env "FACTA_BASE_URL" = Some u ->
     config_of (setenv "FACTA_BASE_URL" (u ++ "/") env) timeout
     = config_of env timeout).
Proof.
  split; [|split].
  - intros env. apply rstrip_slash_last.
  - intros env u H. unfold facta_base, getenv_or. rewrite H.
    apply rstrip_slash_only.
  - intros env u timeout H.
    unfold config_of, facta_base, basic_auth, login_cert, getenv_or, setenv.
    cbn. rewrite H, rstrip_slash_snoc. reflexivity.
Qed.

Lemma facta_base_without_trailing_slash_witness :
  config_of (setenv "FACTA_BASE_URL" "https://facta.example/api/" 
               (setenv "FACTA_BASE_URL" "https://facta.example/api" empty_env)) 45
  = config_of (setenv "FACTA_BASE_URL" "https://facta.example/api" empty_env) 45.
Proof.
  destruct facta_base_without_trailing_slash as (_ & _ & H).
  exact (H (setenv "FACTA_BASE_URL" "https://facta.example/api" empty_env)
           "https://facta.example/api" 45 eq_refl).
Defined.
